(** * The document panel and the chat input of my-ai-chatbot-nextjs

    A shallow embedding of the state engine of [src/components/block.tsx]
    (the [PureBlock] component: version store, navigation, debounced
    saving, diff view) and of the upload and send logic shared by
    [multimodal-input.tsx] and [chat-input.tsx].

    React state cells become fields of a record, [setX] calls become
    values of an [Update] type that are applied to the record, the SWR
    cache is a finite map from request keys to snapshot lists, and
    network traffic is a list of [Request]s. *)

From Stdlib Require Import ZArith String List Bool Lia.
From stdpp Require Import base option list gmap strings.
Import ListNotations.

Local Open Scope string_scope.
Local Open Scope Z_scope.
Local Open Scope list_scope.

(** ** JavaScript helpers *)

Module JS.

(** [a ?? b] on a nullable string. *)
Definition nullish (a : option string) (b : string) : string :=
  match a with
  | Some s => s
  | None => b
  end.

(** Truthiness of a string: only the empty string is falsy. *)
Definition truthy (s : string) : bool := negb (String.eqb s "").

(** Truthiness of a nullable string ([null] and [""] are falsy). *)
Definition truthy_opt (a : option string) : bool :=
  match a with
  | Some s => truthy s
  | None => false
  end.

(** [arr[i]] for an integer [i]: [undefined] below zero and past the end. *)
Definition index {A} (arr : list A) (i : Z) : option A :=
  if i <? 0 then None else arr !! Z.to_nat i.

(** [arr.at(-1)]. *)
Definition at_last {A} (arr : list A) : option A := last arr.

(** [arr.length] as a JavaScript number. *)
Definition length {A} (arr : list A) : Z := Z.of_nat (List.length arr).

(** [a !== b] where [a] is a string and [b] is [string | null]. *)
Definition strict_ne (a : string) (b : option string) : bool :=
  match b with
  | Some s => negb (String.eqb a s)
  | None => true
  end.

End JS.

(** ** Data model *)

(** Modelled from the spec: the type [Document] is imported from
    [@/lib/db/schema], which is not part of the sources. The spec gives a
    snapshot as [{ documentId, title, content, createdAt }]; [block.tsx]
    reads [content] as nullable ([content ?? ""]). [createdAt] is a time
    stamp in milliseconds. *)
Module Document.
Record t := mk {
  documentId : string;
  createdAt : Z;
  title : string;
  content : option string
}.

#[global] Instance eq_dec : EqDecision t.
Proof. solve_decision. Defined.

(** [{ ...d, content: c, createdAt: now }] *)
Definition with_content (d : t) (c : string) (now : Z) : t :=
  {| documentId := documentId d; createdAt := now; title := title d;
     content := Some c |}.
End Document.

Inductive Status := streaming | idle.
Inductive Mode := edit | diff.

#[global] Instance Status_eq_dec : EqDecision Status.
Proof. solve_decision. Defined.
#[global] Instance Mode_eq_dec : EqDecision Mode.
Proof. solve_decision. Defined.

(** The pixel rectangle of the element the panel grows out of; it is only
    passed through. *)
Record BoundingBox := {
  top : Z;
  left : Z;
  width : Z;
  height : Z
}.

(** [interface UIBlock] *)
Module UIBlock.
Record t := mk {
  title : string;
  documentId : string;
  content : string;
  isVisible : bool;
  status : Status;
  boundingBox : BoundingBox
}.

(** [{ ...currentBlock, content: c }] *)
Definition with_content (b : t) (c : string) : t :=
  {| title := title b; documentId := documentId b; content := c;
     isVisible := isVisible b; status := status b;
     boundingBox := boundingBox b |}.
End UIBlock.

(** A request handed to [fetch]. *)
Inductive Request :=
| GET (url : string)
| POST (url : string) (title : string) (content : string).

#[global] Instance Request_eq_dec : EqDecision Request.
Proof. solve_decision. Defined.

(** ** [PureBlock] *)

Module Block.

(** The SWR cache: request key to the snapshot list held for it. *)
Abbreviation Cache := (gmap string (list Document.t)).

(** The hooks of [PureBlock], with the [block] prop and the SWR cache. *)
Record State := mkState {
  block : UIBlock.t;
  cache : Cache;
  mode : Mode;
  document : option Document.t;
  currentVersionIndex : Z;
  isContentDirty : bool
}.

(** [`/api/document?id=${block.documentId}`] *)
Definition documentUrl (b : UIBlock.t) : string :=
  String.append "/api/document?id=" (UIBlock.documentId b).

(** The key given to [useSWR<Array<Document>>]: [null] while streaming. *)
Definition documentsKey (b : UIBlock.t) : option string :=
  match UIBlock.status b with
  | streaming => None
  | idle => Some (documentUrl b)
  end.

(** [data: documents] of that hook: what the cache holds for the key,
    [undefined] when the key is [null] or nothing is cached. *)
Definition documents (st : State) : option (list Document.t) :=
  match documentsKey (block st) with
  | Some k => cache st !! k
  | None => None
  end.

(** *** [getDocumentContentById] *)

Definition getDocumentContentById
    (documents : option (list Document.t)) (index : Z) : string :=
  match documents with
  | None => ""
  | Some docs =>
      match JS.index docs index with
      | None => ""
      | Some d => JS.nullish (Document.content d) ""
      end
  end.

(** *** [handleVersionChange] *)

Inductive VersionChange := next | prev | toggle | latest.

(** The state setters a handler may call; the argument is the updater. *)
Inductive Update :=
| SetCurrentVersionIndex (f : Z -> Z)
| SetMode (f : Mode -> Mode)
| SetIsContentDirty (b : bool).

Definition applyUpdate (st : State) (u : Update) : State :=
  match u with
  | SetCurrentVersionIndex f =>
      mkState (block st) (cache st) (mode st) (document st)
              (f (currentVersionIndex st)) (isContentDirty st)
  | SetMode f =>
      mkState (block st) (cache st) (f (mode st)) (document st)
              (currentVersionIndex st) (isContentDirty st)
  | SetIsContentDirty b =>
      mkState (block st) (cache st) (mode st) (document st)
              (currentVersionIndex st) b
  end.

Definition applyUpdates (st : State) (us : list Update) : State :=
  fold_left applyUpdate us st.

(** The handler closes over [documents] and [currentVersionIndex] of the
    render it was created in; the index setters are functional updates. *)
Definition handleVersionChange
    (documents : option (list Document.t)) (currentVersionIndex : Z)
    (type : VersionChange) : list Update :=
  match documents with
  | None => []
  | Some docs =>
      (match type with
       | latest => [SetCurrentVersionIndex (fun _ => JS.length docs - 1);
                    SetMode (fun _ => edit)]
       | _ => []
       end) ++
      (match type with
       | toggle => [SetMode (fun mode =>
                               match mode with edit => diff | diff => edit end)]
       | _ => []
       end) ++
      (match type with
       | prev =>
           if 0 <? currentVersionIndex
           then [SetCurrentVersionIndex (fun index => index - 1)]
           else []
       | next =>
           if currentVersionIndex <? JS.length docs - 1
           then [SetCurrentVersionIndex (fun index => index + 1)]
           else []
       | _ => []
       end)
  end.

(** One click: the handler of the current render runs and its updates are
    committed before the next event. *)
Definition navigate (st : State) (type : VersionChange) : State :=
  applyUpdates st
    (handleVersionChange (documents st) (currentVersionIndex st) type).

Definition navigateAll (st : State) (types : list VersionChange) : State :=
  fold_left navigate types st.

(** *** The [documents] effect *)

Definition setCache (st : State) (c : Cache) : State :=
  mkState (block st) c (mode st) (document st)
          (currentVersionIndex st) (isContentDirty st).

Definition setBlock (st : State) (b : UIBlock.t) : State :=
  mkState b (cache st) (mode st) (document st)
          (currentVersionIndex st) (isContentDirty st).

(** The body of [useEffect(..., [documents, setBlock])]. *)
Definition documentsEffect (st : State) : State :=
  match documents st with
  | Some docs =>
      if 0 <? JS.length docs then
        match JS.at_last docs with
        | Some mostRecentDocument =>
            mkState
              (UIBlock.with_content (block st)
                 (JS.nullish (Document.content mostRecentDocument) ""))
              (cache st) (mode st) (Some mostRecentDocument)
              (JS.length docs - 1) (isContentDirty st)
        | None => st
        end
      else st
  | None => st
  end.

(** A re-render: the effect runs when its dependency [documents] is no
    longer the value of the previous render. *)
Definition commit (before after : State) : State :=
  if decide (documents after = documents before) then after
  else documentsEffect after.

(** The result [data] of a version fetch for [key] reaches the cache. *)
Definition onFetchResult
    (key : string) (data : list Document.t) (st : State) : State :=
  commit st (setCache st (<[key := data]> (cache st))).

(** The owner of the [block] prop replaces it. *)
Definition onSetBlock (b : UIBlock.t) (st : State) : State :=
  commit st (setBlock st b).

(** The panel right after it is mounted with block [b] on the cache [c]:
    the initial values of the hooks, then the effect of the first render. *)
Definition mount (b : UIBlock.t) (c : Cache) : State :=
  documentsEffect (mkState b c edit None (-1) false).

(** *** Version fetches *)

(** Modelled from the spec: the cache library ([swr]) is not part of the
    sources. A hook whose key is [null] starts no request; with a key it
    starts [GET key] when it revalidates. *)
Definition swrRevalidate (key : option string) : list Request :=
  match key with
  | Some k => [GET k]
  | None => []
  end.

(** Requests started by the render that follows a change of the [block]
    prop: the hook revalidates when its key changed, and the effect on
    [block.status] calls [mutateDocuments()]. *)
Definition requestsOnBlockChange (b b' : UIBlock.t) : list Request :=
  (if decide (documentsKey b' = documentsKey b) then []
   else swrRevalidate (documentsKey b')) ++
  (if decide (UIBlock.status b' = UIBlock.status b) then []
   else swrRevalidate (documentsKey b')).

(** Requests started on mount: the hook fetches and the status effect runs. *)
Definition requestsOnMount (b : UIBlock.t) : list Request :=
  swrRevalidate (documentsKey b) ++ swrRevalidate (documentsKey b).

(** Every request of a panel that is mounted with [b0] and then sees the
    blocks [bs], each paired with the block of the render that started it. *)
Fixpoint fetchLogFrom (b : UIBlock.t) (bs : list UIBlock.t)
    : list (UIBlock.t * Request) :=
  match bs with
  | [] => []
  | b' :: rest =>
      map (pair b') (requestsOnBlockChange b b') ++ fetchLogFrom b' rest
  end.

Definition fetchLog (b0 : UIBlock.t) (bs : list UIBlock.t)
    : list (UIBlock.t * Request) :=
  map (pair b0) (requestsOnMount b0) ++ fetchLogFrom b0 bs.

(** *** [handleContentChange] and [saveContent] *)

(** The mutator given to [mutate(key, ..., { revalidate: false })], run on
    what the cache holds for the key. [fetchResolves] tells whether the
    awaited [fetch] resolves (it rejects on a network failure) and [now] is
    [new Date()]. The result is the new state and the requests sent. The
    prop [block] is never null, so the first [return] is not taken. *)
Definition handleContentChange
    (b : UIBlock.t) (updatedContent : string)
    (fetchResolves : bool) (now : Z) (st : State) : State * list Request :=
  let key := documentUrl b in
  match cache st !! key with
  | None => (st, [])
  | Some currentDocuments =>
      match JS.at_last currentDocuments with
      | None => (applyUpdate st (SetIsContentDirty false), [])
      | Some currentDocument =>
          if negb (JS.truthy_opt (Document.content currentDocument)) then
            (applyUpdate st (SetIsContentDirty false), [])
          else if JS.strict_ne updatedContent
                    (Document.content currentDocument) then
            let request := POST key (UIBlock.title b) updatedContent in
            if fetchResolves then
              let newDocument :=
                Document.with_content currentDocument updatedContent now in
              (setCache (applyUpdate st (SetIsContentDirty false))
                 (<[key := currentDocuments ++ [newDocument]]> (cache st)),
               [request])
            else (st, [request])
          else (st, [])
      end
  end.

(** [handleContentChange] followed by the re-render it causes. *)
Definition persist
    (updatedContent : string) (fetchResolves : bool) (now : Z)
    (st : State) : State * list Request :=
  let r := handleContentChange (block st) updatedContent
             fetchResolves now st in
  (commit st (fst r), snd r).

(** What [saveContent] does besides [setIsContentDirty(true)]. *)
Inductive SaveAction :=
| MarkDirty
| CallDebounced (updatedContent : string)
| CallNow (updatedContent : string).

Definition saveContent
    (document : option Document.t) (updatedContent : string)
    (debounce : bool) : list SaveAction :=
  match document with
  | Some d =>
      if JS.strict_ne updatedContent (Document.content d) then
        [MarkDirty;
         if debounce then CallDebounced updatedContent
         else CallNow updatedContent]
      else []
  | None => []
  end.

(** *** Debounced saving on a time line *)

(** The delay given to [useDebounceCallback], in milliseconds. *)
Definition debounceDelay : Z := 2000.

(** The panel, the argument and due time of the armed timer, and the
    requests sent so far with the time they were sent at. Only [saveContent]
    calls happen on this time line: the [block] prop is not replaced between
    them, so the calls all reach the same debounced function. *)
Record Timeline := mkTimeline {
  panel : State;
  pending : option (string * Z);
  sent : list (Z * Request)
}.

(** One run of [handleContentChange] at time [t]. For a request sent at [t],
    [net t] is the time at which it is answered, which is what [new Date()]
    gives after the [await], or [None] when it rejects. The requests are
    logged with the time they are sent at, and the time line takes a request
    to be answered before the next call arrives. *)
Definition runPersist
    (net : Z -> option Z) (t : Z) (c : string) (tl : Timeline)
    (pending' : option (string * Z)) : Timeline :=
  let r :=
    match net t with
    | Some answered => persist c true answered (panel tl)
    | None => persist c false t (panel tl)
    end in
  mkTimeline (fst r) pending' (sent tl ++ map (pair t) (snd r)).

(** Modelled from the spec: [useDebounceCallback] ([usehooks-ts]) is not
    part of the sources. A call arms (or re-arms) one trailing timer that
    is due [debounceDelay] after the call; when the timer is due the
    wrapped function runs once, on the argument of the last call. *)
Definition expire (net : Z -> option Z) (t : Z) (tl : Timeline) : Timeline :=
  match pending tl with
  | Some (c, due) =>
      if due <=? t then runPersist net due c tl None else tl
  | None => tl
  end.

(** The actions of one [saveContent] call at time [t]; a debounced call
    re-arms the timer with its argument. *)
Definition saveAction
    (net : Z -> option Z) (t : Z) (tl : Timeline) (a : SaveAction) : Timeline :=
  match a with
  | MarkDirty =>
      mkTimeline (applyUpdate (panel tl) (SetIsContentDirty true))
                 (pending tl) (sent tl)
  | CallDebounced c =>
      mkTimeline (panel tl) (Some (c, t + debounceDelay)) (sent tl)
  | CallNow c => runPersist net t c tl (pending tl)
  end.

(** [saveContent(updatedContent, debounce)] called at time [t]. *)
Record Call := mkCall {
  time : Z;
  updatedContent : string;
  debounce : bool
}.

Definition step (net : Z -> option Z) (tl : Timeline) (c : Call) : Timeline :=
  let tl1 := expire net (time c) tl in
  fold_left (saveAction net (time c))
    (saveContent (document (panel tl1)) (updatedContent c) (debounce c))
    tl1.

(** No further call arrives: an armed timer runs when it is due. *)
Definition settle (net : Z -> option Z) (tl : Timeline) : Timeline :=
  match pending tl with
  | Some (_, due) => expire net due tl
  | None => tl
  end.

Definition run (net : Z -> option Z) (calls : list Call) (st : State)
    : Timeline :=
  settle net (fold_left (step net) calls (mkTimeline st None [])).

(** The calls come at non-decreasing times, each less than
    [debounceDelay] after the one before it. *)
Fixpoint withinQuietWindow (t : Z) (calls : list Call) : Prop :=
  match calls with
  | [] => True
  | c :: rest =>
      t <= time c /\ time c < t + debounceDelay /\
      withinQuietWindow (time c) rest
  end.

(** *** Events of a mounted panel *)

Inductive Event :=
| Fetched (key : string) (data : list Document.t)
| BlockSet (b : UIBlock.t)
| VersionChanged (type : VersionChange)
| ContentChanged (updatedContent : string) (fetchResolves : bool) (now : Z).

Definition handle (st : State) (e : Event) : State :=
  match e with
  | Fetched key data => onFetchResult key data st
  | BlockSet b => onSetBlock b st
  | VersionChanged type => navigate st type
  | ContentChanged c ok now => fst (persist c ok now st)
  end.

(** The version index points into the snapshot list whenever there is one. *)
Definition indexInRange (st : State) : Prop :=
  forall docs, documents st = Some docs -> 1 <= JS.length docs ->
    0 <= currentVersionIndex st < JS.length docs.

(** *** What the panel shows *)

Definition isCurrentVersion (st : State) : bool :=
  match documents st with
  | Some docs =>
      if 0 <? JS.length docs
      then currentVersionIndex st =? JS.length docs - 1
      else true
  | None => true
  end.

(** The element rendered in the document area. *)
Inductive MainView :=
| DocumentSkeleton
| Editor (content : string) (isCurrentVersion : bool)
         (currentVersionIndex : Z) (status : Status)
| DiffView (oldContent newContent : string).

Definition mainView (isDocumentsFetching : bool) (st : State) : MainView :=
  if isDocumentsFetching && negb (JS.truthy (UIBlock.content (block st)))
  then DocumentSkeleton
  else
    match mode st with
    | edit =>
        Editor
          (if isCurrentVersion st then UIBlock.content (block st)
           else getDocumentContentById (documents st)
                  (currentVersionIndex st))
          (isCurrentVersion st) (currentVersionIndex st)
          (UIBlock.status (block st))
    | diff =>
        DiffView
          (getDocumentContentById (documents st)
             (currentVersionIndex st - 1))
          (getDocumentContentById (documents st) (currentVersionIndex st))
    end.

(** *** The suggestions hook and the header *)

(** The key given to [useSWR<Array<Suggestion>>]; an array, also an empty one,
    is truthy. *)
Definition suggestionsKey (st : State) : option string :=
  match documents st with
  | Some _ =>
      match UIBlock.status (block st) with
      | streaming => None
      | idle =>
          Some (String.append "/api/suggestions?documentId="
                  (UIBlock.documentId (block st)))
      end
  | None => None
  end.

(** [document?.title ?? block.title] *)
Definition headerTitle (st : State) : string :=
  match document st with
  | Some d => Document.title d
  | None => UIBlock.title (block st)
  end.

(** The line under the title: "Saving changes...", "Updated ..." computed
    from [document.createdAt], or the pulsing placeholder. *)
Inductive StatusLine :=
| SavingChanges
| UpdatedSince (createdAt : Z)
| Placeholder.

Definition statusLine (st : State) : StatusLine :=
  if isContentDirty st then SavingChanges
  else
    match document st with
    | Some d => UpdatedSince (Document.createdAt d)
    | None => Placeholder
    end.

(** The loaded document is the latest snapshot whenever there is one. *)
Definition documentIsLatest (st : State) : Prop :=
  forall docs d, documents st = Some docs -> JS.at_last docs = Some d ->
    document st = Some d.

(** The fields of the block other than [content]. *)
Definition sameBlockButContent (b b' : UIBlock.t) : Prop :=
  UIBlock.title b' = UIBlock.title b /\
  UIBlock.documentId b' = UIBlock.documentId b /\
  UIBlock.isVisible b' = UIBlock.isVisible b /\
  UIBlock.status b' = UIBlock.status b /\
  UIBlock.boundingBox b' = UIBlock.boundingBox b.

End Block.

(** ** The chat input ([PureMultimodalInput] and [ChatInput])

    The two components have the same [uploadFile], [handleFileChange],
    [submitForm], key handler and send button. The state below is that of
    [ChatInput] together with the props its owner passes on every render;
    [PureMultimodalInput] is wrapped in [memo], see [MultimodalInput]. *)

Module ChatInput.

(** [Attachment] of the [ai] package, as [uploadFile] builds it. *)
Record Attachment := mkAttachment {
  url : string;
  name : string;
  contentType : string
}.

#[global] Instance Attachment_eq_dec : EqDecision Attachment.
Proof. solve_decision. Defined.

(** What [uploadFile] uses of a [File]. *)
Record File := mkFile { fileName : string }.

(** How [POST /api/files/upload] ends for one file: [fetch] or the reading
    of the body throws, or there is a response that is [ok] or not. *)
Inductive UploadResponse :=
| FetchThrows
| ResponseOk (url pathname contentType : string)
| ResponseNotOk (error : string).

(** The resolved value of [uploadFile(file)] ([None] is [undefined]) and
    the error toast it shows. The promise never rejects. *)
Definition uploadFile (file : File) (response : UploadResponse)
    : option Attachment * option string :=
  match response with
  | ResponseOk url pathname contentType =>
      (Some (mkAttachment url pathname contentType), None)
  | ResponseNotOk error => (None, Some error)
  | FetchThrows => (None, Some "Failed to upload file, please try again!")
  end.

(** [attachment !== undefined] on the outcome of one upload. *)
Definition succeeded (response : UploadResponse) : bool :=
  match response with
  | ResponseOk _ _ _ => true
  | _ => false
  end.

Record State := mkState {
  input : string;
  isLoading : bool;
  attachments : list Attachment;
  uploadQueue : list string;
  localStorageInput : string
}.

(** [handleFileChange] up to its [await]: the queue shows the file names. *)
Definition handleFileChange_start (files : list File) (st : State) : State :=
  mkState (input st) (isLoading st) (attachments st)
          (map fileName files) (localStorageInput st).

(** [Promise.all] keeps the order of [files]; [undefined] is filtered out. *)
Definition successfullyUploadedAttachments
    (uploads : list (File * UploadResponse)) : list Attachment :=
  omap (fun u => fst (uploadFile (fst u) (snd u))) uploads.

(** [handleFileChange] after the [await]: the functional update of the
    attachments and the [finally] block, on the state of that moment. *)
Definition handleFileChange_finish
    (uploads : list (File * UploadResponse)) (st : State) : State :=
  mkState (input st) (isLoading st)
          (attachments st ++ successfullyUploadedAttachments uploads)
          [] (localStorageInput st).

Definition handleFileChange
    (uploads : list (File * UploadResponse)) (st : State) : State :=
  handleFileChange_finish uploads
    (handleFileChange_start (map fst uploads) st).

(** What a handler hands to its collaborators. *)
Inductive Effect :=
| ToastError (message : string)
| HandleSubmit (experimental_attachments : list Attachment)
| Stop.

Definition submitForm (st : State) : State * list Effect :=
  (mkState (input st) (isLoading st) [] (uploadQueue st) "",
   [HandleSubmit (attachments st)]).

(** [onKeyDown] of the text area. *)
Definition onKeyDown (key : string) (shiftKey : bool) (st : State)
    : State * list Effect :=
  if String.eqb key "Enter" && negb shiftKey then
    if isLoading st then
      (st, [ToastError "Please wait for the model to finish its response!"])
    else submitForm st
  else (st, []).

(** The button at the send position. *)
Inductive SendControl :=
| StopButton
| SendButton (disabled : bool).

Definition sendControl (st : State) : SendControl :=
  if isLoading st then StopButton
  else SendButton ((Z.of_nat (String.length (input st)) =? 0) ||
                   (0 <? JS.length (uploadQueue st))).

(** A click on that button; a disabled button delivers no click. *)
Definition onSendControlClick (st : State) : State * list Effect :=
  match sendControl st with
  | StopButton => (st, [Stop])
  | SendButton true => (st, [])
  | SendButton false => submitForm st
  end.

Definition submissions (effects : list Effect) : list (list Attachment) :=
  omap (fun e => match e with
                 | HandleSubmit a => Some a
                 | _ => None
                 end) effects.

(** *** The draft kept in local storage *)

(** [domValue || localStorageInput || ""] *)
Definition finalValue (domValue localStorageInput : string) : string :=
  if JS.truthy domValue then domValue
  else if JS.truthy localStorageInput then localStorageInput
  else "".

(** [setInput(value)], the setter owned by the parent. *)
Definition setInput (value : string) (st : State) : State :=
  mkState value (isLoading st) (attachments st) (uploadQueue st)
          (localStorageInput st).

(** The body of [useEffect(..., [input, setLocalStorageInput])]. *)
Definition inputEffect (st : State) : State :=
  mkState (input st) (isLoading st) (attachments st) (uploadQueue st)
          (input st).

(** A change of the text area, and the effect of the render it causes. *)
Definition onInputChange (value : string) (st : State) : State :=
  inputEffect (setInput value st).

(** Mounting with the text area holding [domValue]: both effects of the
    first render run on the values of that render, then the effect on
    [input] runs again when the input changed. *)
Definition mount (domValue : string) (st : State) : State :=
  let st1 :=
    mkState (finalValue domValue (localStorageInput st)) (isLoading st)
            (attachments st) (uploadQueue st) (input st) in
  if String.eqb (input st1) (input st) then st1 else inputEffect st1.

(** *** What is shown around the text area *)



End ChatInput.

(** ** [MultimodalInput]: [PureMultimodalInput] behind its [memo] comparator *)

Module MultimodalInput.

(** The props that the comparator and [submitForm] read. *)
Record Props := mkProps {
  input : string;
  isLoading : bool;
  attachments : list ChatInput.Attachment
}.

(** The comparator given to [memo]; [true] lets React skip the render. *)
Definition arePropsEqual (prevProps currentProps : Props) : bool :=
  if negb (String.eqb (input prevProps) (input currentProps)) then false
  else if negb (Bool.eqb (isLoading prevProps) (isLoading currentProps))
       then false
       else true.

(** The props the owner passes (its own state), the props the component
    last rendered with, and the upload queue of the component. *)
Record State := mkState {
  passed : Props;
  rendered : Props;
  uploadQueue : list string
}.

(** The owner renders with the props [next]. By the contract of React's
    [memo] the component renders with them unless the comparator answers
    [true]; then it keeps the props of its last render, also when its own
    state changes later. *)
Definition ownerRender (next : Props) (st : State) : State :=
  mkState next
          (if arePropsEqual (rendered st) next then rendered st else next)
          (uploadQueue st).

(** [setInput(value)] in the owner. *)
Definition setInput (value : string) (st : State) : State :=
  ownerRender
    (mkProps value (isLoading (passed st)) (attachments (passed st))) st.

(** [handleFileChange] after the [await]: the functional [setAttachments]
    works on the owner's list and the [finally] block empties the queue. *)
Definition handleFileChange_finish
    (uploads : list (ChatInput.File * ChatInput.UploadResponse))
    (st : State) : State :=
  let st1 :=
    ownerRender
      (mkProps (input (passed st)) (isLoading (passed st))
         (attachments (passed st)
            ++ ChatInput.successfullyUploadedAttachments uploads)) st in
  mkState (passed st1) (rendered st1) [].

(** [submitForm] closes over the [attachments] of the last render;
    [setAttachments([])] empties the owner's list. *)
Definition submitForm (st : State) : State * list ChatInput.Effect :=
  (ownerRender (mkProps (input (passed st)) (isLoading (passed st)) []) st,
   [ChatInput.HandleSubmit (attachments (rendered st))]).

End MultimodalInput.

(** ** The document tool buttons ([DocumentToolResult], [DocumentToolCall]) *)

Module DocumentTool.

Inductive ToolType := create | update | request_suggestions.
Inductive Tense := present | past.

(** [getActionText]; [None] is the [null] of the [default] case. *)
Definition getActionText (type : ToolType) (tense : Tense) : option string :=
  match type with
  | create =>
      Some match tense with present => "Creating" | past => "Created" end
  | update =>
      Some match tense with present => "Updating" | past => "Updated" end
  | request_suggestions =>
      Some match tense with
           | present => "Adding suggestions"
           | past => "Added suggestions to"
           end
  end.



End DocumentTool.

(** ** The chat shell ([chat.tsx]) *)

Module Chat.

(** [{block?.isVisible && <Block ... />}]: the panel component exists only
    while the block is visible; its hooks start afresh on every mount, while
    the SWR cache outlives it. The exit animation is not part of the model:
    a hidden panel is unmounted at once. *)
Inductive Panel :=
| Hidden (block : UIBlock.t) (cache : Block.Cache)
| Shown (st : Block.State).

Definition block (p : Panel) : UIBlock.t :=
  match p with
  | Hidden b _ => b
  | Shown st => Block.block st
  end.

(** [setBlock] of [Chat] and the render that follows, with the version
    requests that render starts. *)
Definition setBlock (b' : UIBlock.t) (p : Panel) : Panel * list Request :=
  match p with
  | Hidden _ c =>
      if UIBlock.isVisible b'
      then (Shown (Block.mount b' c), Block.requestsOnMount b')
      else (Hidden b' c, [])
  | Shown st =>
      if UIBlock.isVisible b'
      then (Shown (Block.onSetBlock b' st),
            Block.requestsOnBlockChange (Block.block st) b')
      else (Hidden b' (Block.cache st), [])
  end.

End Chat.

(** ** The chat page ([page.tsx]) and the model choice ([customModel]) *)

Module Page.

(** [models.find((model) => model.id === modelIdFromCookie)?.id ||
    DEFAULT_MODEL_NAME]. The list [models] and the default come from
    [@/lib/ai/models], which is not part of the sources; they are taken as
    arguments, a model through its [id]. A missing cookie is [None]. *)
Definition selectedModelId {Model : Type} (id : Model -> string)
    (models : list Model) (DEFAULT_MODEL_NAME : string)
    (modelIdFromCookie : option string) : string :=
  match modelIdFromCookie with
  | Some c =>
      match List.find (fun model => String.eqb (id model) c) models with
      | Some model =>
          if JS.truthy (id model) then id model else DEFAULT_MODEL_NAME
      | None => DEFAULT_MODEL_NAME
      end
  | None => DEFAULT_MODEL_NAME
  end.

Inductive Provider := anthropic | openai.

(** [apiIdentifier.includes("claude")] *)
Definition includesClaude (apiIdentifier : string) : bool :=
  match String.index 0 "claude" apiIdentifier with
  | Some _ => true
  | None => false
  end.

(** The provider [customModel] wraps: [model ?? openai(apiIdentifier)]. *)
Definition customModel (apiIdentifier : string) : Provider * string :=
  if includesClaude apiIdentifier then (anthropic, apiIdentifier)
  else (openai, apiIdentifier).

End Page.

(** ** Concrete panels and inputs used in the examples *)

Module Examples.

Definition box : BoundingBox :=
  {| top := 270; left := 480; width := 250; height := 50 |}.

Definition key1 : string := "/api/document?id=doc1".

(** A snapshot of document [doc1] created at time [t]. *)
Definition snapshot (c : option string) (t : Z) : Document.t :=
  Document.mk "doc1" t "Notes" c.

Definition panelBlock (c : string) (s : Status) : UIBlock.t :=
  UIBlock.mk "Notes" "doc1" c true s box.

Definition v1 : Document.t := snapshot (Some "v1") 1000.
Definition v2 : Document.t := snapshot (Some "v2") 2000.
Definition v3 : Document.t := snapshot (Some "v3") 3000.

(** The user is typing: the dirty flag is set and the panel shows the
    edit, the store holds one snapshot. *)
Definition editing : Block.State :=
  Block.mkState (panelBlock "my edit" idle) {[ key1 := [v1] ]}
                edit (Some v1) 0 true.

(** The panel shows the latest of two snapshots. *)
Definition twoVersions : Block.State :=
  Block.mkState (panelBlock "v2" idle) {[ key1 := [v1; v2] ]}
                edit (Some v2) 1 false.

(** The only snapshot has empty content. *)
Definition emptyDocument : Block.State :=
  Block.mkState (panelBlock "" idle) {[ key1 := [snapshot (Some "") 1000] ]}
                edit (Some (snapshot (Some "") 1000)) 0 true.

(** The panel shows the only snapshot and nothing is being saved. *)
Definition saved : Block.State :=
  Block.mkState (panelBlock "v1" idle) {[ key1 := [v1] ]}
                edit (Some v1) 0 false.

(** Every request is answered 120 ms after it is sent. *)
Definition alwaysResolves : Z -> option Z := fun t => Some (t + 120).

(** The user types a draft and half a second later restores the text of
    the loaded snapshot. *)
Definition typeThenRevert : list Block.Call :=
  [Block.mkCall 0 "draft" true; Block.mkCall 500 "v1" true].

(** Two further edits that follow a first one in quick succession. *)
Definition furtherEdits : list Block.Call :=
  [Block.mkCall 100 "a" true; Block.mkCall 900 "ab" true].

(** The panel is in diff mode on the second of three versions. *)
Definition diffOnSecond : Block.State :=
  Block.mkState (panelBlock "v3" idle) {[ key1 := [v1; v2; v3] ]}
                diff (Some v3) 1 false.

(** The panel is in diff mode on the first version. *)
Definition diffOnFirst : Block.State :=
  Block.mkState (panelBlock "v3" idle) {[ key1 := [v1; v2; v3] ]}
                diff (Some v3) 0 false.

Definition photo : ChatInput.File := ChatInput.mkFile "photo.png".
Definition notes : ChatInput.File := ChatInput.mkFile "notes.txt".

(** Two uploads submitted together; the second one fails. *)
Definition oneFails : list (ChatInput.File * ChatInput.UploadResponse) :=
  [(photo, ChatInput.ResponseOk "https://blob/photo.png" "photo.png" "image/png");
   (notes, ChatInput.ResponseNotOk "File type should be JPEG or PNG")].

Definition idleInput : ChatInput.State :=
  ChatInput.mkState "" false [] [] "".

(** A typed message while an upload is still pending. *)
Definition uploading : ChatInput.State :=
  ChatInput.mkState "hello" false [] ["photo.png"] "hello".

(** The panel shows the latest of three snapshots. *)
Definition threeVersions : Block.State :=
  Block.mkState (panelBlock "v3" idle) {[ key1 := [v1; v2; v3] ]}
                edit (Some v3) 2 false.

(** The user looks at the second of three versions in edit mode. *)
Definition historical : Block.State :=
  Block.mkState (panelBlock "v3" idle) {[ key1 := [v1; v2; v3] ]}
                edit (Some v3) 1 false.

Definition neverResolves : Z -> option Z := fun _ => None.


(** Both uploads of a batch fail. *)
Definition bothFail : list (ChatInput.File * ChatInput.UploadResponse) :=
  [(photo, ChatInput.FetchThrows);
   (notes, ChatInput.ResponseNotOk "File type should be JPEG or PNG")].

(** A stored draft from an earlier visit. *)
Definition withDraft : ChatInput.State :=
  ChatInput.mkState "" false [] [] "unsent words".

Definition modelIds : list string := ["gpt-4o-mini"; "gpt-4o"; "claude-3-5"].



End Examples.

(** * Properties *)

(** ** Helper facts *)

Lemma js_index_in_range {A} (arr : list A) (i : Z) :
  0 <= i < JS.length arr -> is_Some (JS.index arr i).
Proof.
  intros [Hlo Hhi]. unfold JS.index, JS.length in *.
  destruct (Z.ltb_spec i 0) as [?|_]; [lia|].
  apply lookup_lt_is_Some. lia.
Qed.

Lemma js_index_out_of_range {A} (arr : list A) (i : Z) :
  i < 0 \/ JS.length arr <= i -> JS.index arr i = None.
Proof.
  intros H. unfold JS.index, JS.length in *.
  destruct (Z.ltb_spec i 0) as [?|?]; [reflexivity|].
  apply lookup_ge_None. lia.
Qed.

(** ** [getDocumentContentById] *)

(** C9: [getDocumentContentById] returns a string for every integer index:
    the empty string when there is no snapshot list, when the index is
    negative or at least the length, or when the snapshot's content is null,
    and the snapshot's content otherwise. *)
Theorem getDocumentContentById_total (documents : option (list Document.t)) (index : Z) :
  (documents = None -> Block.getDocumentContentById documents index = "") /\
  (forall docs, documents = Some docs ->
     (index < 0 \/ JS.length docs <= index ->
      Block.getDocumentContentById documents index = "") /\
     (0 <= index < JS.length docs ->
      exists d, docs !! Z.to_nat index = Some d /\
        (Document.content d = None ->
         Block.getDocumentContentById documents index = "") /\
        (forall c, Document.content d = Some c ->
         Block.getDocumentContentById documents index = c))).
Proof.
  split.
  - intros ->. reflexivity.
  - intros docs ->. split.
    + intros Hout. simpl. by rewrite js_index_out_of_range.
    + intros Hin. destruct (js_index_in_range docs index Hin) as [d Hd].
      exists d. simpl. rewrite Hd.
      unfold JS.index in Hd. destruct (index <? 0); [done|].
      split; [done|]. split; intros; by simplify_eq/=; rewrite ?H.
Qed.

Lemma getDocumentContentById_total_witness :
  Block.getDocumentContentById
    (Some [Examples.v1; Examples.snapshot None 2000]) 5 = "" /\
  Block.getDocumentContentById
    (Some [Examples.v1; Examples.snapshot None 2000]) (-1) = "" /\
  Block.getDocumentContentById None 0 = "".
Proof.
  split; [|split].
  - destruct (getDocumentContentById_total
                (Some [Examples.v1; Examples.snapshot None 2000]) 5)
      as [_ Hsome].
    destruct (Hsome _ eq_refl) as [Hout _]. apply Hout.
    right. unfold JS.length. simpl. lia.
  - destruct (getDocumentContentById_total
                (Some [Examples.v1; Examples.snapshot None 2000]) (-1))
      as [_ Hsome].
    destruct (Hsome _ eq_refl) as [Hout _]. apply Hout. left. lia.
  - destruct (getDocumentContentById_total None 0) as [Hnone _].
    apply Hnone. reflexivity.
Defined.

(** ** Navigation between versions *)

Lemma navigate_documents (st : Block.State) (type : Block.VersionChange) :
  Block.documents (Block.navigate st type) = Block.documents st.
Proof.
  unfold Block.navigate, Block.handleVersionChange.
  destruct (Block.documents st) as [docs|] eqn:Hdocs; [|simpl; exact Hdocs].
  destruct type; simpl; repeat case_match; simpl; exact Hdocs.
Qed.

Lemma navigate_in_range (st : Block.State) (docs : list Document.t)
    (type : Block.VersionChange) :
  Block.documents st = Some docs ->
  0 <= Block.currentVersionIndex st < JS.length docs ->
  0 <= Block.currentVersionIndex (Block.navigate st type) < JS.length docs.
Proof.
  intros Hdocs Hrange. unfold Block.navigate, Block.handleVersionChange.
  rewrite Hdocs. destruct type; simpl.
  - destruct (Z.ltb_spec (Block.currentVersionIndex st) (JS.length docs - 1));
      simpl; lia.
  - destruct (Z.ltb_spec 0 (Block.currentVersionIndex st)); simpl; lia.
  - lia.
  - lia.
Qed.

(** C2: on a version store holding at least one snapshot, with the index in
    [0, length-1], every sequence of next, prev, toggle and latest keeps the
    index in [0, length-1]. prev at index 0 and next at index length-1 change
    nothing, latest sets the index to length-1 and the mode to edit, and
    toggle flips the mode between edit and diff and keeps the index. *)
Theorem navigate_keeps_index_in_range (st : Block.State) (docs : list Document.t) (types : list Block.VersionChange) :
  Block.documents st = Some docs ->
  1 <= JS.length docs ->
  0 <= Block.currentVersionIndex st < JS.length docs ->
  0 <= Block.currentVersionIndex (Block.navigateAll st types) < JS.length docs /\
  (Block.currentVersionIndex st = 0 ->
   Block.navigate st Block.prev = st) /\
  (Block.currentVersionIndex st = JS.length docs - 1 ->
   Block.navigate st Block.next = st) /\
  (Block.currentVersionIndex (Block.navigate st Block.latest)
     = JS.length docs - 1 /\
   Block.mode (Block.navigate st Block.latest) = edit) /\
  (Block.currentVersionIndex (Block.navigate st Block.toggle)
     = Block.currentVersionIndex st /\
   Block.mode (Block.navigate st Block.toggle)
     = match Block.mode st with edit => diff | diff => edit end).
Proof.
  intros Hdocs Hlen Hrange. split.
  - clear Hlen. revert st Hdocs Hrange.
    induction types as [|type types IH]; intros st Hdocs Hrange; [exact Hrange|].
    simpl. apply IH.
    + by rewrite navigate_documents.
    + by apply navigate_in_range.
  - unfold Block.navigate, Block.handleVersionChange. rewrite Hdocs. simpl.
    repeat split.
    + intros ->. by destruct st.
    + intros ->. rewrite Z.ltb_irrefl. by destruct st.
Qed.

Lemma navigate_keeps_index_in_range_witness :
  0 <= Block.currentVersionIndex
         (Block.navigateAll Examples.twoVersions
            [Block.prev; Block.prev; Block.toggle; Block.next; Block.next;
             Block.latest; Block.next])
    < JS.length [Examples.v1; Examples.v2].
Proof.
  apply (navigate_keeps_index_in_range Examples.twoVersions
           [Examples.v1; Examples.v2]
           [Block.prev; Block.prev; Block.toggle; Block.next; Block.next;
            Block.latest; Block.next]).
  - reflexivity.
  - unfold JS.length. simpl. lia.
  - unfold JS.length. simpl. lia.
Defined.

(** The index is in range in every state a mounted panel can reach, so the
    premise of the navigation theorem is met whenever there are snapshots. *)

Lemma documentsEffect_documents (st : Block.State) :
  Block.documents (Block.documentsEffect st) = Block.documents st.
Proof.
  unfold Block.documentsEffect.
  destruct (Block.documents st) as [docs|] eqn:Hdocs; [|exact Hdocs].
  destruct (0 <? JS.length docs); [|exact Hdocs].
  destruct (JS.at_last docs); exact Hdocs.
Qed.

Lemma documentsEffect_indexInRange (st : Block.State) :
  Block.indexInRange (Block.documentsEffect st).
Proof.
  intros docs Hdocs Hlen. rewrite documentsEffect_documents in Hdocs.
  unfold Block.documentsEffect. rewrite Hdocs.
  destruct (Z.ltb_spec 0 (JS.length docs)); [|lia].
  destruct (JS.at_last docs) eqn:Hlast.
  - simpl. lia.
  - apply last_None in Hlast as ->. unfold JS.length in Hlen. simpl in Hlen. lia.
Qed.

Lemma commit_indexInRange (before after : Block.State) :
  Block.indexInRange before ->
  Block.currentVersionIndex after = Block.currentVersionIndex before ->
  Block.indexInRange (Block.commit before after).
Proof.
  intros Hinv Hidx. unfold Block.commit. case_decide as Hsame.
  - intros docs Hdocs Hlen. rewrite Hidx. apply Hinv; [congruence | exact Hlen].
  - apply documentsEffect_indexInRange.
Qed.

Lemma handleContentChange_index (b : UIBlock.t) (c : string) (ok : bool)
    (now : Z) (st : Block.State) :
  Block.currentVersionIndex (fst (Block.handleContentChange b c ok now st))
  = Block.currentVersionIndex st.
Proof.
  unfold Block.handleContentChange. by repeat case_match.
Qed.

Lemma handle_indexInRange (st : Block.State) (e : Block.Event) :
  Block.indexInRange st -> Block.indexInRange (Block.handle st e).
Proof.
  intros Hinv. destruct e as [key data|b|type|c ok now]; simpl.
  - by apply commit_indexInRange.
  - by apply commit_indexInRange.
  - intros docs Hdocs Hlen. rewrite navigate_documents in Hdocs.
    apply navigate_in_range; [exact Hdocs | by apply Hinv].
  - apply commit_indexInRange; [exact Hinv | apply handleContentChange_index].
Qed.

(** X1: in every state that a mounted panel reaches through fetch results,
    changes of the block, navigation and persistence attempts, the version
    index lies in [0, length-1] whenever the panel holds at least one
    snapshot. *)
Lemma reachable_indexInRange (b : UIBlock.t) (c : Block.Cache)
    (events : list Block.Event) :
  Block.indexInRange (fold_left Block.handle events (Block.mount b c)).
Proof.
  assert (Hstart : Block.indexInRange (Block.mount b c))
    by apply documentsEffect_indexInRange.
  revert Hstart. generalize (Block.mount b c).
  induction events as [|e events IH]; intros st Hinv; [exact Hinv|].
  simpl. apply IH. by apply handle_indexInRange.
Qed.

(** Inside the range prev and next move the index by one step. *)
Lemma navigate_moves (st : Block.State) (docs : list Document.t) :
  Block.documents st = Some docs ->
  (0 < Block.currentVersionIndex st ->
   Block.currentVersionIndex (Block.navigate st Block.prev)
     = Block.currentVersionIndex st - 1) /\
  (Block.currentVersionIndex st < JS.length docs - 1 ->
   Block.currentVersionIndex (Block.navigate st Block.next)
     = Block.currentVersionIndex st + 1).
Proof.
  intros Hdocs. unfold Block.navigate, Block.handleVersionChange.
  rewrite Hdocs. simpl. split; intros H.
  - by destruct (Z.ltb_spec 0 (Block.currentVersionIndex st)); [|lia].
  - by destruct (Z.ltb_spec (Block.currentVersionIndex st)
                   (JS.length docs - 1)); [|lia].
Qed.

(** ** Arrival of a fetched snapshot sequence *)

Lemma at_last_nonempty {A} (l : list A) (x : A) :
  JS.at_last l = Some x -> (0 <? JS.length l) = true.
Proof.
  unfold JS.at_last, JS.length. destruct l; [done|].
  intros _. apply Z.ltb_lt. simpl. lia.
Qed.

Lemma documents_after_fetch (st : Block.State) (data : list Document.t) :
  UIBlock.status (Block.block st) = idle ->
  Block.documents
    (Block.setCache st
       (<[Block.documentUrl (Block.block st) := data]> (Block.cache st)))
  = Some data.
Proof.
  intros Hidle. unfold Block.documents, Block.documentsKey. simpl.
  rewrite Hidle. apply lookup_insert_eq.
Qed.

(** The state after a fetch result that the effect reacts to. *)
Lemma onFetchResult_effect (st : Block.State) (data : list Document.t)
    (d : Document.t) :
  UIBlock.status (Block.block st) = idle ->
  JS.at_last data = Some d ->
  Block.documents st <> Some data ->
  Block.onFetchResult (Block.documentUrl (Block.block st)) data st
  = Block.mkState
      (UIBlock.with_content (Block.block st)
         (JS.nullish (Document.content d) ""))
      (<[Block.documentUrl (Block.block st) := data]> (Block.cache st))
      (Block.mode st) (Some d) (JS.length data - 1)
      (Block.isContentDirty st).
Proof.
  intros Hidle Hlast Hnew. unfold Block.onFetchResult, Block.commit.
  rewrite (documents_after_fetch st data Hidle).
  destruct (decide (Some data = Block.documents st)) as [Heq|_]; [congruence|].
  unfold Block.documentsEffect.
  rewrite (documents_after_fetch st data Hidle).
  rewrite (at_last_nonempty data d Hlast), Hlast. reflexivity.
Qed.

(** C1, as the code has it: a fetched sequence for the panel's document that
    holds a snapshot and differs from the sequence held so far replaces the
    panel content by the content of its last snapshot (the empty string when
    that is null), whether or not the dirty flag is set; the dirty flag stays
    as it was. *)
Theorem fetch_result_replaces_content (st : Block.State) (data : list Document.t) (d : Document.t) :
  UIBlock.status (Block.block st) = idle ->
  JS.at_last data = Some d ->
  Block.documents st <> Some data ->
  UIBlock.content
    (Block.block
       (Block.onFetchResult (Block.documentUrl (Block.block st)) data st))
  = JS.nullish (Document.content d) "" /\
  Block.isContentDirty
    (Block.onFetchResult (Block.documentUrl (Block.block st)) data st)
  = Block.isContentDirty st.
Proof.
  intros Hidle Hlast Hnew.
  rewrite (onFetchResult_effect st data d Hidle Hlast Hnew). done.
Qed.

(** C1 fails as stated: with the dirty flag set and the panel showing the
    user's edit, a fetched sequence for the same document overwrites the
    panel content. *)
Lemma dirty_edit_is_overwritten :
  Block.isContentDirty Examples.editing = true /\
  UIBlock.content (Block.block Examples.editing) = "my edit" /\
  UIBlock.content
    (Block.block
       (Block.onFetchResult Examples.key1 [Examples.v1; Examples.v2]
          Examples.editing))
  = "v2" /\
  UIBlock.content
    (Block.block
       (Block.onFetchResult Examples.key1 [Examples.v1; Examples.v2]
          Examples.editing))
  <> UIBlock.content (Block.block Examples.editing).
Proof. vm_compute. repeat split; discriminate. Qed.

Lemma fetch_result_replaces_content_witness :
  UIBlock.content
    (Block.block
       (Block.onFetchResult (Block.documentUrl (Block.block Examples.editing))
          [Examples.v1; Examples.v2] Examples.editing))
  = JS.nullish (Document.content Examples.v2) "" /\
  Block.isContentDirty
    (Block.onFetchResult (Block.documentUrl (Block.block Examples.editing))
       [Examples.v1; Examples.v2] Examples.editing)
  = Block.isContentDirty Examples.editing.
Proof.
  apply (fetch_result_replaces_content Examples.editing
           [Examples.v1; Examples.v2] Examples.v2).
  - reflexivity.
  - reflexivity.
  - vm_compute. discriminate.
Defined.

(** C5, as the code has it: a fetched sequence for the panel's document that
    holds a snapshot and differs from the sequence held so far moves
    currentVersionIndex to length-1, makes the last snapshot the current
    document and mirrors its content into the panel content, whatever the
    index was before; the display mode is kept. *)
Theorem fetch_result_advances_index (st : Block.State) (data : list Document.t) (d : Document.t) :
  UIBlock.status (Block.block st) = idle ->
  JS.at_last data = Some d ->
  Block.documents st <> Some data ->
  Block.currentVersionIndex
    (Block.onFetchResult (Block.documentUrl (Block.block st)) data st)
  = JS.length data - 1 /\
  Block.document
    (Block.onFetchResult (Block.documentUrl (Block.block st)) data st)
  = Some d /\
  UIBlock.content
    (Block.block
       (Block.onFetchResult (Block.documentUrl (Block.block st)) data st))
  = JS.nullish (Document.content d) "" /\
  Block.mode
    (Block.onFetchResult (Block.documentUrl (Block.block st)) data st)
  = Block.mode st.
Proof.
  intros Hidle Hlast Hnew.
  rewrite (onFetchResult_effect st data d Hidle Hlast Hnew). done.
Qed.

(** C5 fails as stated: the user steps back to the first of two versions,
    then a sequence of three snapshots arrives; the index moves to the last
    entry instead of staying on the version the user chose. *)
Lemma historical_index_is_not_preserved :
  Block.currentVersionIndex (Block.navigate Examples.twoVersions Block.prev)
  = 0 /\
  Block.currentVersionIndex
    (Block.onFetchResult Examples.key1 [Examples.v1; Examples.v2; Examples.v3]
       (Block.navigate Examples.twoVersions Block.prev))
  = 2 /\
  Block.currentVersionIndex
    (Block.onFetchResult Examples.key1 [Examples.v1; Examples.v2; Examples.v3]
       (Block.navigate Examples.twoVersions Block.prev))
  <> Block.currentVersionIndex
       (Block.navigate Examples.twoVersions Block.prev).
Proof. vm_compute. repeat split; discriminate. Qed.

Lemma fetch_result_advances_index_witness :
  Block.currentVersionIndex
    (Block.onFetchResult
       (Block.documentUrl
          (Block.block (Block.navigate Examples.twoVersions Block.prev)))
       [Examples.v1; Examples.v2; Examples.v3]
       (Block.navigate Examples.twoVersions Block.prev))
  = JS.length [Examples.v1; Examples.v2; Examples.v3] - 1.
Proof.
  apply (fetch_result_advances_index
           (Block.navigate Examples.twoVersions Block.prev)
           [Examples.v1; Examples.v2; Examples.v3] Examples.v3).
  - reflexivity.
  - reflexivity.
  - vm_compute. discriminate.
Defined.

(** ** Version fetches and the panel status *)

Lemma swrRevalidate_idle (b : UIBlock.t) (r : Request) :
  In r (Block.swrRevalidate (Block.documentsKey b)) ->
  UIBlock.status b = idle /\ r = GET (Block.documentUrl b).
Proof.
  unfold Block.documentsKey. destruct (UIBlock.status b); simpl.
  - intros [].
  - intros [<-|[]]. done.
Qed.

Lemma requestsOnBlockChange_idle (b b' : UIBlock.t) (r : Request) :
  In r (Block.requestsOnBlockChange b b') ->
  UIBlock.status b' = idle /\ r = GET (Block.documentUrl b').
Proof.
  unfold Block.requestsOnBlockChange. intros H.
  apply in_app_iff in H as [H|H]; case_decide; try (by destruct H);
    by apply swrRevalidate_idle.
Qed.

Lemma fetchLogFrom_idle (b0 : UIBlock.t) (bs : list UIBlock.t)
    (b : UIBlock.t) (r : Request) :
  In (b, r) (Block.fetchLogFrom b0 bs) ->
  UIBlock.status b = idle /\ r = GET (Block.documentUrl b).
Proof.
  revert b0. induction bs as [|b' rest IH]; intros b0; simpl; [intros []|].
  intros H. apply in_app_iff in H as [H|H]; [|by eapply IH].
  apply in_map_iff in H as (r' & [= <- <-] & Hr).
  by eapply requestsOnBlockChange_idle.
Qed.

(** C4: whatever blocks a mounted panel goes through, every request of the
    version hook is started by a render whose status is idle and is the GET
    for that render's documentId; a render with status streaming starts no
    request. The step from streaming to idle does start the fetch. *)
Theorem no_version_fetch_while_streaming (b0 : UIBlock.t) (bs : list UIBlock.t) :
  (forall b r, In (b, r) (Block.fetchLog b0 bs) ->
     UIBlock.status b = idle /\ r = GET (Block.documentUrl b)) /\
  (forall b r, UIBlock.status b = streaming ->
     ~ In (b, r) (Block.fetchLog b0 bs)) /\
  (forall b b', UIBlock.status b = streaming -> UIBlock.status b' = idle ->
     In (GET (Block.documentUrl b')) (Block.requestsOnBlockChange b b')).
Proof.
  assert (Hlog : forall b r, In (b, r) (Block.fetchLog b0 bs) ->
            UIBlock.status b = idle /\ r = GET (Block.documentUrl b)).
  { intros b r H. unfold Block.fetchLog in H.
    apply in_app_iff in H as [H|H]; [|by eapply fetchLogFrom_idle].
    apply in_map_iff in H as (r' & [= <- <-] & Hr).
    unfold Block.requestsOnMount in Hr.
    apply in_app_iff in Hr as [Hr|Hr]; by apply swrRevalidate_idle. }
  split; [exact Hlog|]. split.
  - intros b r Hs Hin. apply Hlog in Hin as [Hidle _]. congruence.
  - intros b b' Hs Hi. unfold Block.requestsOnBlockChange, Block.documentsKey.
    rewrite Hs, Hi. simpl. by left.
Qed.

Lemma no_version_fetch_while_streaming_witness :
  ~ In (Examples.panelBlock "" streaming, GET Examples.key1)
      (Block.fetchLog (Examples.panelBlock "" idle)
         [Examples.panelBlock "" streaming; Examples.panelBlock "Hel" streaming;
          Examples.panelBlock "Hel" idle]) /\
  In (GET (Block.documentUrl (Examples.panelBlock "Hel" idle)))
     (Block.requestsOnBlockChange (Examples.panelBlock "Hel" streaming)
        (Examples.panelBlock "Hel" idle)).
Proof.
  pose proof (no_version_fetch_while_streaming (Examples.panelBlock "" idle)
         [Examples.panelBlock "" streaming; Examples.panelBlock "Hel" streaming;
          Examples.panelBlock "Hel" idle]) as (_ & Hnone & Hsome).
  split.
  - apply Hnone. reflexivity.
  - apply Hsome; reflexivity.
Defined.

(** ** Persisting an edit *)

Lemma strict_ne_true (updated : string) (c : option string) :
  c <> Some updated -> JS.strict_ne updated c = true.
Proof.
  destruct c as [s|]; [|done]. simpl. intros Hne.
  apply negb_true_iff, String.eqb_neq. congruence.
Qed.

Lemma strict_ne_false (updated : string) :
  JS.strict_ne updated (Some updated) = false.
Proof. simpl. by rewrite String.eqb_refl. Qed.

(** The branch that writes. *)
Lemma handleContentChange_changed (b : UIBlock.t) (updated : string)
    (ok : bool) (now : Z) (st : Block.State) (docs : list Document.t)
    (cur : Document.t) :
  Block.cache st !! Block.documentUrl b = Some docs ->
  JS.at_last docs = Some cur ->
  JS.truthy_opt (Document.content cur) = true ->
  Document.content cur <> Some updated ->
  Block.handleContentChange b updated ok now st
  = if ok then
      (Block.setCache (Block.applyUpdate st (Block.SetIsContentDirty false))
         (<[Block.documentUrl b := docs ++ [Document.with_content cur updated now]]>
            (Block.cache st)),
       [POST (Block.documentUrl b) (UIBlock.title b) updated])
    else (st, [POST (Block.documentUrl b) (UIBlock.title b) updated]).
Proof.
  intros Hcache Hlast Htruthy Hne. unfold Block.handleContentChange.
  rewrite Hcache, Hlast, Htruthy. simpl.
  by rewrite (strict_ne_true updated _ Hne).
Qed.

(** The branches that do not write. *)
Lemma handleContentChange_unchanged (b : UIBlock.t) (updated : string)
    (ok : bool) (now : Z) (st : Block.State) (docs : list Document.t)
    (cur : Document.t) :
  Block.cache st !! Block.documentUrl b = Some docs ->
  JS.at_last docs = Some cur ->
  (JS.truthy_opt (Document.content cur) = false ->
   Block.handleContentChange b updated ok now st
   = (Block.applyUpdate st (Block.SetIsContentDirty false), [])) /\
  (JS.truthy_opt (Document.content cur) = true ->
   Document.content cur = Some updated ->
   Block.handleContentChange b updated ok now st = (st, [])).
Proof.
  intros Hcache Hlast. unfold Block.handleContentChange.
  rewrite Hcache, Hlast. split.
  - by intros ->.
  - intros -> ->. simpl. by rewrite String.eqb_refl.
Qed.

(** C6, as the code has it. For a persistence attempt on a cached sequence
    whose latest snapshot is [cur]: when the content of [cur] is null or
    empty, nothing is sent, the sequence is kept and the dirty flag is
    cleared; when it is non-empty and equal to the new content, nothing is
    sent and the sequence is kept; when it is non-empty and differs, a POST
    with the new content is sent, and once that request resolves a snapshot
    with the new content is appended to the sequence and the dirty flag is
    cleared. *)
Theorem handleContentChange_cases (b : UIBlock.t) (updated : string) (ok : bool) (now : Z) (st : Block.State) (docs : list Document.t) (cur : Document.t) :
  Block.cache st !! Block.documentUrl b = Some docs ->
  JS.at_last docs = Some cur ->
  (JS.truthy_opt (Document.content cur) = false ->
   snd (Block.handleContentChange b updated ok now st) = [] /\
   Block.cache (fst (Block.handleContentChange b updated ok now st))
     = Block.cache st /\
   Block.isContentDirty (fst (Block.handleContentChange b updated ok now st))
     = false) /\
  (JS.truthy_opt (Document.content cur) = true ->
   Document.content cur = Some updated ->
   snd (Block.handleContentChange b updated ok now st) = [] /\
   Block.cache (fst (Block.handleContentChange b updated ok now st))
     = Block.cache st) /\
  (JS.truthy_opt (Document.content cur) = true ->
   Document.content cur <> Some updated ->
   snd (Block.handleContentChange b updated ok now st)
     = [POST (Block.documentUrl b) (UIBlock.title b) updated] /\
   (ok = true ->
    Block.cache (fst (Block.handleContentChange b updated ok now st))
      !! Block.documentUrl b
      = Some (docs ++ [Document.with_content cur updated now]) /\
    Block.isContentDirty (fst (Block.handleContentChange b updated ok now st))
      = false)).
Proof.
  intros Hcache Hlast.
  destruct (handleContentChange_unchanged b updated ok now st docs cur
              Hcache Hlast) as [Hempty Hequal].
  split; [|split].
  - intros Hfalsy. by rewrite (Hempty Hfalsy).
  - intros Htruthy Hsame. by rewrite (Hequal Htruthy Hsame).
  - intros Htruthy Hne.
    rewrite (handleContentChange_changed b updated ok now st docs cur
               Hcache Hlast Htruthy Hne).
    split; [by destruct ok|]. intros ->. simpl.
    split; [apply lookup_insert_eq|done].
Qed.

(** C6 fails as stated: the latest snapshot has empty content and the new
    content differs from it, yet no write is sent. *)
Lemma empty_snapshot_is_never_written :
  Block.cache Examples.emptyDocument
    !! Block.documentUrl (Block.block Examples.emptyDocument)
  = Some [Examples.snapshot (Some "") 1000] /\
  Some "first words" <> Document.content (Examples.snapshot (Some "") 1000) /\
  snd (Block.handleContentChange (Block.block Examples.emptyDocument)
         "first words" true 5000 Examples.emptyDocument)
  = [].
Proof. vm_compute. repeat split; discriminate. Qed.

Lemma handleContentChange_cases_witness :
  snd (Block.handleContentChange (Block.block Examples.editing)
         "my edit" true 5000 Examples.editing)
  = [POST Examples.key1 "Notes" "my edit"] /\
  Block.cache
    (fst (Block.handleContentChange (Block.block Examples.editing)
            "my edit" true 5000 Examples.editing))
    !! Examples.key1
  = Some [Examples.v1; Examples.snapshot (Some "my edit") 5000] /\
  Block.isContentDirty
    (fst (Block.handleContentChange (Block.block Examples.editing)
            "my edit" true 5000 Examples.editing))
  = false.
Proof.
  destruct (handleContentChange_cases (Block.block Examples.editing)
              "my edit" true 5000 Examples.editing [Examples.v1] Examples.v1)
    as (_ & _ & Hchanged); [reflexivity | reflexivity |].
  destruct Hchanged as [Hsent Hresolved]; [reflexivity | discriminate |].
  destruct (Hresolved eq_refl) as [Hcache Hdirty].
  split; [exact Hsent|]. split; [exact Hcache | exact Hdirty].
Defined.

(** With the flag set and a new content equal to the latest snapshot's, the
    attempt returns without touching the flag. *)
Lemma equal_content_leaves_flag_set :
  Block.isContentDirty Examples.editing = true /\
  Block.handleContentChange (Block.block Examples.editing) "v1" true 5000
    Examples.editing
  = (Examples.editing, []).
Proof. vm_compute. done. Qed.

(** ** Debounced saving *)

Lemma markDirty_idem (P : Block.State) :
  Block.isContentDirty P = true ->
  Block.applyUpdate P (Block.SetIsContentDirty true) = P.
Proof. destruct P; simpl. by intros ->. Qed.

Lemma default_last_cons {A} (x d : A) (l : list A) :
  List.last (x :: l) d = List.last l x.
Proof.
  revert x d. induction l as [|y l IH]; intros x d; [done|].
  change (List.last (x :: y :: l) d) with (List.last (y :: l) d).
  by rewrite !IH.
Qed.

Lemma last_in {A} (l : list A) (d : A) : In (List.last l d) (d :: l).
Proof.
  revert d. induction l as [|x l IH]; intros d; [by left|].
  rewrite default_last_cons. right. apply IH.
Qed.

(** A call that passes the guard of [saveContent] before the armed timer is
    due marks the panel dirty and re-arms the timer. *)
Lemma step_rearms (net : Z -> option Z) (P : Block.State)
    (p : option (string * Z)) (s : list (Z * Request)) (c : Block.Call)
    (d : Document.t) (c0 : string) :
  Block.document P = Some d ->
  Document.content d = Some c0 ->
  Block.updatedContent c <> c0 ->
  Block.debounce c = true ->
  match p with Some (_, due) => Block.time c < due | None => True end ->
  Block.step net (Block.mkTimeline P p s) c
  = Block.mkTimeline (Block.applyUpdate P (Block.SetIsContentDirty true))
      (Some (Block.updatedContent c, Block.time c + Block.debounceDelay)) s.
Proof.
  intros Hdoc Hc0 Hne Hdeb Hdue. unfold Block.step, Block.expire. simpl.
  assert (Hkeep : match p with
                  | Some (c', due) =>
                      if due <=? Block.time c
                      then Block.runPersist net due c'
                             (Block.mkTimeline P p s) None
                      else Block.mkTimeline P p s
                  | None => Block.mkTimeline P p s
                  end = Block.mkTimeline P p s).
  { destruct p as [[c' due]|]; [|done].
    by destruct (Z.leb_spec due (Block.time c)); [lia|]. }
  rewrite Hkeep. cbn [Block.panel]. unfold Block.saveContent.
  rewrite Hdoc, Hc0, strict_ne_true, Hdeb by congruence.
  simpl. by rewrite Hdoc.
Qed.

Lemma fold_rearms (net : Z -> option Z) (P : Block.State) (d : Document.t)
    (c0 : string) (s : list (Z * Request)) (rest : list Block.Call) :
  Block.document P = Some d ->
  Document.content d = Some c0 ->
  Block.isContentDirty P = true ->
  forall prev : Block.Call,
  Forall (fun c => Block.debounce c = true /\ Block.updatedContent c <> c0)
    rest ->
  Block.withinQuietWindow (Block.time prev) rest ->
  fold_left (Block.step net) rest
    (Block.mkTimeline P
       (Some (Block.updatedContent prev, Block.time prev + Block.debounceDelay))
       s)
  = Block.mkTimeline P
      (Some (Block.updatedContent (List.last rest prev),
             Block.time (List.last rest prev) + Block.debounceDelay)) s.
Proof.
  intros Hdoc Hc0 Hdirty. induction rest as [|c rest IH]; intros prev Hall Hq.
  - reflexivity.
  - apply Forall_cons in Hall as [[Hdeb Hne] Hall].
    destruct Hq as (Hle & Hlt & Hq). simpl fold_left.
    rewrite (step_rearms net P _ s c d c0 Hdoc Hc0 Hne Hdeb) by exact Hlt.
    rewrite (markDirty_idem P Hdirty), default_last_cons. by apply IH.
Qed.

(** The write of one persistence attempt on a panel whose loaded document is
    the latest cached snapshot. *)
Lemma persist_sends (net : Z -> option Z) (t : Z) (c : string) (P : Block.State)
    (p p' : option (string * Z)) (s : list (Z * Request))
    (docs : list Document.t) (d : Document.t) (c0 : string) :
  Block.cache P !! Block.documentUrl (Block.block P) = Some docs ->
  JS.at_last docs = Some d ->
  Document.content d = Some c0 ->
  c0 <> "" ->
  c <> c0 ->
  Block.sent (Block.runPersist net t c (Block.mkTimeline P p s) p')
  = s ++ [(t, POST (Block.documentUrl (Block.block P))
                (UIBlock.title (Block.block P)) c)] /\
  Block.pending (Block.runPersist net t c (Block.mkTimeline P p s) p') = p'.
Proof.
  intros Hcache Hlast Hc0 Hnonempty Hne.
  assert (Htruthy : JS.truthy_opt (Document.content d) = true).
  { rewrite Hc0. simpl. unfold JS.truthy.
    apply negb_true_iff, String.eqb_neq. exact Hnonempty. }
  assert (Hdiffers : Document.content d <> Some c) by (rewrite Hc0; congruence).
  unfold Block.runPersist, Block.persist. simpl. split; [|done].
  destruct (net t) as [answered|]; simpl;
    by rewrite (handleContentChange_changed _ c _ _ P docs d
                  Hcache Hlast Htruthy Hdiffers).
Qed.

(** C3, as the code has it, on a time line on which only saveContent calls
    reach the panel (the block prop is not replaced in between, so all calls
    go to one debounced function). A document is loaded, it is the latest
    cached snapshot and its content is non-empty. For one or more
    saveContent(content, true) calls whose contents all differ from the
    loaded content and that come less than 2000 ms after one another, exactly
    one write is sent, 2000 ms after the last call and with the content of
    the last call, and no timer stays armed. A saveContent(content, false)
    call with such a content sends its write at the time of the call. A call
    whose content equals the loaded content, debounced or not, is ignored:
    on any panel with that loaded document and before an armed timer is due
    it leaves the panel with its dirty flag, the armed timer and the
    requests sent exactly as they were. *)
Theorem debounced_calls_send_one_write (net : Z -> option Z) (st : Block.State) (docs : list Document.t) (d : Document.t) (c0 : string) (first : Block.Call) (rest : list Block.Call) :
  Block.document st = Some d ->
  Block.cache st !! Block.documentUrl (Block.block st) = Some docs ->
  JS.at_last docs = Some d ->
  Document.content d = Some c0 ->
  c0 <> "" ->
  Forall (fun c => Block.debounce c = true /\ Block.updatedContent c <> c0)
    (first :: rest) ->
  Block.withinQuietWindow (Block.time first) rest ->
  (Block.sent (Block.run net (first :: rest) st)
   = [(Block.time (List.last rest first) + Block.debounceDelay,
       POST (Block.documentUrl (Block.block st))
         (UIBlock.title (Block.block st))
         (Block.updatedContent (List.last rest first)))] /\
   Block.pending (Block.run net (first :: rest) st) = None) /\
  (forall t c, c <> c0 ->
     Block.sent (Block.step net (Block.mkTimeline st None [])
                   (Block.mkCall t c false))
     = [(t, POST (Block.documentUrl (Block.block st))
              (UIBlock.title (Block.block st)) c)]) /\
  (forall (P : Block.State) (p : option (string * Z))
          (s : list (Z * Request)) (t : Z) (debounce : bool),
     Block.document P = Some d ->
     match p with Some (_, due) => t < due | None => True end ->
     Block.step net (Block.mkTimeline P p s) (Block.mkCall t c0 debounce)
     = Block.mkTimeline P p s).
Proof.
  intros Hdoc Hcache Hlast Hc0 Hnonempty Hall Hq. split; [|split].
  - apply Forall_cons in Hall as [[Hdeb Hne] Hall].
    unfold Block.run. simpl fold_left.
    rewrite (step_rearms net st None [] first d c0 Hdoc Hc0 Hne Hdeb I).
    rewrite (fold_rearms net
               (Block.applyUpdate st (Block.SetIsContentDirty true))
               d c0 [] rest Hdoc Hc0 eq_refl first Hall Hq).
    assert (Hlastne : Block.updatedContent (List.last rest first) <> c0).
    { destruct (last_in rest first) as [<-|Hin]; [exact Hne|].
      rewrite Forall_forall in Hall.
      apply list_elem_of_In in Hin. by apply Hall in Hin as [_ ?]. }
    unfold Block.settle, Block.expire. simpl. rewrite Z.leb_refl.
    destruct (persist_sends net
                (Block.time (List.last rest first) + Block.debounceDelay)
                (Block.updatedContent (List.last rest first))
                (Block.applyUpdate st (Block.SetIsContentDirty true))
                (Some (Block.updatedContent (List.last rest first),
                       Block.time (List.last rest first) + Block.debounceDelay))
                None [] docs d c0 Hcache Hlast Hc0 Hnonempty Hlastne)
      as [Hsent Hpending].
    split; [exact Hsent | exact Hpending].
  - intros t c Hne. unfold Block.step, Block.expire. simpl.
    unfold Block.saveContent. rewrite Hdoc, Hc0.
    rewrite strict_ne_true by congruence. simpl.
    destruct (persist_sends net t c
                (Block.applyUpdate st (Block.SetIsContentDirty true))
                None None [] docs d c0 Hcache Hlast Hc0 Hnonempty Hne)
      as [Hsent _].
    exact Hsent.
  - intros P p s t debounce HdocP Hdue.
    unfold Block.step, Block.expire. cbn [Block.pending Block.time].
    assert (Hkeep : match p with
                    | Some (c', due) =>
                        if due <=? t
                        then Block.runPersist net due c'
                               (Block.mkTimeline P p s) None
                        else Block.mkTimeline P p s
                    | None => Block.mkTimeline P p s
                    end = Block.mkTimeline P p s).
    { destruct p as [[c' due]|]; [|done].
      by destruct (Z.leb_spec due t); [lia|]. }
    rewrite Hkeep. cbn [Block.panel Block.updatedContent Block.debounce].
    unfold Block.saveContent. by rewrite HdocP, Hc0, strict_ne_false.
Qed.

(** C3 fails as stated: the user types a draft and, within the quiet window,
    restores the loaded text. There is one write, and it carries the draft,
    not the content of the last call. *)
Lemma reverted_edit_writes_the_draft :
  Block.withinQuietWindow 0 Examples.typeThenRevert /\
  Block.sent
    (Block.run Examples.alwaysResolves Examples.typeThenRevert Examples.saved)
  = [(2000, POST Examples.key1 "Notes" "draft")] /\
  ~ (exists t,
       Block.sent
         (Block.run Examples.alwaysResolves Examples.typeThenRevert
            Examples.saved)
       = [(t, POST Examples.key1 "Notes" "v1")]).
Proof.
  split; [simpl; unfold Block.debounceDelay; lia|].
  split; [by vm_compute|].
  intros [t Ht]. vm_compute in Ht. discriminate.
Qed.

Lemma debounced_calls_send_one_write_witness :
  (Block.sent
     (Block.run Examples.alwaysResolves
        (Block.mkCall 0 "draft" true :: Examples.furtherEdits) Examples.saved)
   = [(2900, POST Examples.key1 "Notes" "ab")] /\
   Block.pending
     (Block.run Examples.alwaysResolves
        (Block.mkCall 0 "draft" true :: Examples.furtherEdits) Examples.saved)
   = None) /\
  Block.step Examples.alwaysResolves
    (Block.mkTimeline Examples.editing (Some ("draft", 2000)) [])
    (Block.mkCall 500 "v1" true)
  = Block.mkTimeline Examples.editing (Some ("draft", 2000)) [].
Proof.
  destruct (debounced_calls_send_one_write Examples.alwaysResolves
              Examples.saved [Examples.v1] Examples.v1 "v1"
              (Block.mkCall 0 "draft" true) Examples.furtherEdits)
    as (Hone & _ & Hignored).
  - reflexivity.
  - reflexivity.
  - reflexivity.
  - reflexivity.
  - discriminate.
  - repeat constructor; discriminate.
  - simpl. unfold Block.debounceDelay. lia.
  - split; [exact Hone|].
    apply (Hignored Examples.editing (Some ("draft", 2000)) [] 500 true);
      [reflexivity | simpl; lia].
Defined.

(** ** The diff view *)

(** C8: when the panel is in diff mode and shows its document, the diff view
    gets the content of snapshot [index-1] as old and of snapshot [index] as
    new for every index above 0, and the empty string as old and the content
    of snapshot [0] as new at index 0 (a null content counts as empty). *)
Theorem diff_view_compares_adjacent_versions (isDocumentsFetching : bool) (st : Block.State) (docs : list Document.t) :
  Block.mode st = diff ->
  Block.documents st = Some docs ->
  isDocumentsFetching && negb (JS.truthy (UIBlock.content (Block.block st)))
    = false ->
  (forall dOld dNew,
     0 < Block.currentVersionIndex st ->
     docs !! Z.to_nat (Block.currentVersionIndex st - 1) = Some dOld ->
     docs !! Z.to_nat (Block.currentVersionIndex st) = Some dNew ->
     Block.mainView isDocumentsFetching st
     = Block.DiffView (JS.nullish (Document.content dOld) "")
                      (JS.nullish (Document.content dNew) "")) /\
  (forall dNew,
     Block.currentVersionIndex st = 0 ->
     docs !! 0%nat = Some dNew ->
     Block.mainView isDocumentsFetching st
     = Block.DiffView "" (JS.nullish (Document.content dNew) "")).
Proof.
  intros Hmode Hdocs Hshown. unfold Block.mainView.
  rewrite Hshown, Hmode, Hdocs. unfold Block.getDocumentContentById, JS.index.
  split.
  - intros dOld dNew Hpos Hold Hnew.
    destruct (Z.ltb_spec (Block.currentVersionIndex st - 1) 0); [lia|].
    destruct (Z.ltb_spec (Block.currentVersionIndex st) 0); [lia|].
    by rewrite Hold, Hnew.
  - intros dNew -> Hnew. destruct docs as [|d0 rest]; by simplify_eq/=.
Qed.

Lemma diff_view_compares_adjacent_versions_witness :
  Block.mainView false Examples.diffOnSecond = Block.DiffView "v1" "v2" /\
  Block.mainView false Examples.diffOnFirst = Block.DiffView "" "v1".
Proof.
  split.
  - apply (proj1 (diff_view_compares_adjacent_versions false
                    Examples.diffOnSecond
                    [Examples.v1; Examples.v2; Examples.v3]
                    eq_refl eq_refl eq_refl) Examples.v1 Examples.v2);
      [reflexivity | reflexivity | reflexivity].
  - apply (proj2 (diff_view_compares_adjacent_versions false
                    Examples.diffOnFirst
                    [Examples.v1; Examples.v2; Examples.v3]
                    eq_refl eq_refl eq_refl) Examples.v1);
      [reflexivity | reflexivity].
Defined.

(** ** Uploads *)

Lemma successfullyUploaded_In (uploads : list (ChatInput.File * ChatInput.UploadResponse))
    (a : ChatInput.Attachment) :
  In a (ChatInput.successfullyUploadedAttachments uploads) <->
  exists file url pathname contentType,
    In (file, ChatInput.ResponseOk url pathname contentType) uploads /\
    a = ChatInput.mkAttachment url pathname contentType.
Proof.
  unfold ChatInput.successfullyUploadedAttachments.
  rewrite <- list_elem_of_In, list_elem_of_omap. split.
  - intros ([file response] & Hin & Hup). simpl in Hup.
    destruct response as [|url pathname contentType|error]; simplify_eq/=.
    exists file, url, pathname, contentType.
    by rewrite <- list_elem_of_In.
  - intros (file & url & pathname & contentType & Hin & ->).
    exists (file, ChatInput.ResponseOk url pathname contentType).
    by rewrite list_elem_of_In.
Qed.

Lemma successfullyUploaded_length (uploads : list (ChatInput.File * ChatInput.UploadResponse)) :
  List.length (ChatInput.successfullyUploadedAttachments uploads)
  = List.length (List.filter (fun u => ChatInput.succeeded (snd u)) uploads).
Proof.
  unfold ChatInput.successfullyUploadedAttachments.
  induction uploads as [|[file response] uploads IH]; [done|].
  destruct response; simpl; [exact IH | f_equal; exact IH | exact IH].
Qed.

(** C7: a batch of uploads of which any may fail leaves the pending queue
    empty and appends to the committed attachments exactly the attachments of
    the uploads that succeeded, one per success; a failed upload adds nothing
    and does not stop the others. This holds on whatever the state is when
    the batch completes. *)
Theorem handleFileChange_keeps_only_successes (uploads : list (ChatInput.File * ChatInput.UploadResponse)) (st : ChatInput.State) :
  ChatInput.uploadQueue (ChatInput.handleFileChange_start (map fst uploads) st)
    = map (fun u => ChatInput.fileName (fst u)) uploads /\
  ChatInput.uploadQueue (ChatInput.handleFileChange uploads st) = [] /\
  (forall st', ChatInput.uploadQueue
                 (ChatInput.handleFileChange_finish uploads st') = []) /\
  (exists added,
     ChatInput.attachments (ChatInput.handleFileChange uploads st)
       = ChatInput.attachments st ++ added /\
     (forall st', ChatInput.attachments
                    (ChatInput.handleFileChange_finish uploads st')
                  = ChatInput.attachments st' ++ added) /\
     (forall a, In a added <->
        exists file url pathname contentType,
          In (file, ChatInput.ResponseOk url pathname contentType) uploads /\
          a = ChatInput.mkAttachment url pathname contentType) /\
     List.length added
       = List.length
           (List.filter (fun u => ChatInput.succeeded (snd u)) uploads)).
Proof.
  split; [|split; [|split]].
  - simpl. by rewrite map_map.
  - reflexivity.
  - reflexivity.
  - exists (ChatInput.successfullyUploadedAttachments uploads).
    split; [reflexivity|]. split; [reflexivity|]. split.
    + apply successfullyUploaded_In.
    + apply successfullyUploaded_length.
Qed.

(** Two uploads submitted together, the second fails: the list gains the
    one success and the queue is empty. *)
Lemma one_of_two_uploads_fails :
  ChatInput.uploadQueue
    (ChatInput.handleFileChange_start (map fst Examples.oneFails)
       Examples.idleInput)
  = ["photo.png"; "notes.txt"] /\
  ChatInput.attachments
    (ChatInput.handleFileChange Examples.oneFails Examples.idleInput)
  = [ChatInput.mkAttachment "https://blob/photo.png" "photo.png" "image/png"] /\
  ChatInput.uploadQueue
    (ChatInput.handleFileChange Examples.oneFails Examples.idleInput)
  = [].
Proof. by vm_compute. Qed.

(** ** Sending *)


(** Whatever triggers it, a submission carries the committed attachments. *)
Lemma submissions_carry_committed_attachments (st : ChatInput.State)
    (key : string) (shiftKey : bool) (atts : list ChatInput.Attachment) :
  In atts (ChatInput.submissions (snd (ChatInput.onKeyDown key shiftKey st))) \/
  In atts (ChatInput.submissions (snd (ChatInput.onSendControlClick st))) ->
  atts = ChatInput.attachments st.
Proof.
  unfold ChatInput.onKeyDown, ChatInput.onSendControlClick,
    ChatInput.sendControl, ChatInput.submitForm.
  intros [H|H]; repeat case_match; simpl in H;
    try (by destruct H as [<-|[]]); by destruct H.
Qed.

(** C10 at the failing input: a message is typed and an upload is pending;
    the send button is disabled, yet Enter submits the form. *)
Theorem enter_submits_while_upload_is_pending :
  ChatInput.uploadQueue Examples.uploading = ["photo.png"] /\
  ChatInput.sendControl Examples.uploading = ChatInput.SendButton true /\
  ChatInput.onSendControlClick Examples.uploading = (Examples.uploading, []) /\
  ChatInput.isLoading Examples.uploading = false /\
  snd (ChatInput.onKeyDown "Enter" false Examples.uploading)
  = [ChatInput.HandleSubmit []].
Proof. by vm_compute. Qed.

(** * Further properties of the panel *)

(** ** The loaded document *)

Lemma navigate_document (st : Block.State) (type : Block.VersionChange) :
  Block.document (Block.navigate st type) = Block.document st.
Proof.
  unfold Block.navigate, Block.handleVersionChange.
  destruct (Block.documents st); [|done].
  destruct type; simpl; by repeat case_match.
Qed.

Lemma handleContentChange_document (b : UIBlock.t) (c : string) (ok : bool)
    (now : Z) (st : Block.State) :
  Block.document (fst (Block.handleContentChange b c ok now st))
  = Block.document st.
Proof. unfold Block.handleContentChange. by repeat case_match. Qed.

Lemma documentsEffect_documentIsLatest (st : Block.State) :
  Block.documentIsLatest (Block.documentsEffect st).
Proof.
  intros docs d Hdocs Hlast. rewrite documentsEffect_documents in Hdocs.
  unfold Block.documentsEffect. rewrite Hdocs.
  by rewrite (at_last_nonempty docs d Hlast), Hlast.
Qed.

Lemma commit_documentIsLatest (before after : Block.State) :
  Block.documentIsLatest before ->
  Block.document after = Block.document before ->
  Block.documentIsLatest (Block.commit before after).
Proof.
  intros Hinv Hdoc. unfold Block.commit. case_decide as Hsame.
  - intros docs d Hdocs Hlast. rewrite Hdoc.
    apply (Hinv docs d); [congruence | exact Hlast].
  - apply documentsEffect_documentIsLatest.
Qed.

Lemma handle_documentIsLatest (st : Block.State) (e : Block.Event) :
  Block.documentIsLatest st -> Block.documentIsLatest (Block.handle st e).
Proof.
  intros Hinv. destruct e as [key data|b|type|c ok now]; simpl.
  - by apply commit_documentIsLatest.
  - by apply commit_documentIsLatest.
  - intros docs d Hdocs Hlast. rewrite navigate_documents in Hdocs.
    rewrite navigate_document. by apply (Hinv docs d).
  - apply commit_documentIsLatest;
      [exact Hinv | apply handleContentChange_document].
Qed.

(** X2: in every state that a mounted panel reaches, the loaded document
    (the one [saveContent] compares with and the header shows) is the last
    snapshot of the sequence the panel holds, whenever that sequence has a
    snapshot. *)
Theorem reachable_documentIsLatest (b : UIBlock.t) (c : Block.Cache) (events : list Block.Event) :
  Block.documentIsLatest (fold_left Block.handle events (Block.mount b c)).
Proof.
  assert (Hstart : Block.documentIsLatest (Block.mount b c))
    by apply documentsEffect_documentIsLatest.
  revert Hstart. generalize (Block.mount b c).
  induction events as [|e events IH]; intros st Hinv; [exact Hinv|].
  simpl. apply IH. by apply handle_documentIsLatest.
Qed.

(** ** What the panel's own handlers leave alone *)

Lemma sameBlockButContent_refl (b : UIBlock.t) :
  Block.sameBlockButContent b b.
Proof. by repeat split. Qed.

Lemma documentsEffect_block (st : Block.State) :
  Block.sameBlockButContent (Block.block st)
    (Block.block (Block.documentsEffect st)).
Proof.
  unfold Block.documentsEffect. repeat case_match;
    try apply sameBlockButContent_refl. by repeat split.
Qed.

Lemma commit_block (before after : Block.State) :
  Block.sameBlockButContent (Block.block after)
    (Block.block (Block.commit before after)).
Proof.
  unfold Block.commit. case_decide;
    [apply sameBlockButContent_refl | apply documentsEffect_block].
Qed.

Lemma navigate_block (st : Block.State) (type : Block.VersionChange) :
  Block.block (Block.navigate st type) = Block.block st.
Proof.
  unfold Block.navigate, Block.handleVersionChange.
  destruct (Block.documents st); [|done].
  destruct type; simpl; by repeat case_match.
Qed.

Lemma handleContentChange_block (b : UIBlock.t) (c : string) (ok : bool)
    (now : Z) (st : Block.State) :
  Block.block (fst (Block.handleContentChange b c ok now st))
  = Block.block st.
Proof. unfold Block.handleContentChange. by repeat case_match. Qed.

Lemma sameBlockButContent_key (b b' : UIBlock.t) :
  Block.sameBlockButContent b b' ->
  Block.documentsKey b' = Block.documentsKey b.
Proof.
  intros (_ & Hid & _ & Hstatus & _).
  unfold Block.documentsKey, Block.documentUrl. by rewrite Hid, Hstatus.
Qed.

(** X3: a fetch result, a navigation step and a persistence attempt change
    nothing of the block but its content: title, documentId, visibility,
    status and bounding box stay, so the key of the version hook stays and
    the render that follows starts no version fetch. *)
Theorem handlers_keep_block_identity (st : Block.State) (e : Block.Event) :
  (forall b, e <> Block.BlockSet b) ->
  Block.sameBlockButContent (Block.block st) (Block.block (Block.handle st e)) /\
  Block.documentsKey (Block.block (Block.handle st e))
    = Block.documentsKey (Block.block st) /\
  Block.requestsOnBlockChange (Block.block st)
    (Block.block (Block.handle st e)) = [].
Proof.
  intros Hnot.
  assert (Hsame : Block.sameBlockButContent (Block.block st)
                    (Block.block (Block.handle st e))).
  { destruct e as [key data|b|type|c ok now]; simpl.
    - exact (commit_block st
               (Block.setCache st (<[key := data]> (Block.cache st)))).
    - by destruct (Hnot b).
    - rewrite navigate_block. apply sameBlockButContent_refl.
    - pose proof (commit_block st
                    (fst (Block.handleContentChange (Block.block st) c ok now st)))
        as Hc.
      by rewrite handleContentChange_block in Hc. }
  split; [exact Hsame|].
  pose proof (sameBlockButContent_key _ _ Hsame) as Hkey.
  split; [exact Hkey|].
  unfold Block.requestsOnBlockChange. rewrite Hkey.
  destruct Hsame as (_ & _ & _ & -> & _).
  by rewrite !decide_True.
Qed.

Lemma handlers_keep_block_identity_witness :
  Block.requestsOnBlockChange (Block.block Examples.editing)
    (Block.block
       (Block.handle Examples.editing
          (Block.Fetched Examples.key1 [Examples.v1; Examples.v2])))
  = [].
Proof.
  apply (handlers_keep_block_identity Examples.editing
           (Block.Fetched Examples.key1 [Examples.v1; Examples.v2])).
  intros b. discriminate.
Defined.

(** ** A persistence attempt seen from the panel *)

Lemma documentsEffect_cache (st : Block.State) :
  Block.cache (Block.documentsEffect st) = Block.cache st.
Proof. unfold Block.documentsEffect. by repeat case_match. Qed.

Lemma commit_cache (before after : Block.State) :
  Block.cache (Block.commit before after) = Block.cache after.
Proof.
  unfold Block.commit. case_decide; [done | apply documentsEffect_cache].
Qed.

Lemma js_length_snoc {A} (l : list A) (x : A) :
  JS.length (l ++ [x]) - 1 = JS.length l.
Proof. unfold JS.length. rewrite length_app. simpl. lia. Qed.

Lemma js_index_snoc {A} (l : list A) (x : A) :
  JS.index (l ++ [x]) (JS.length l) = Some x.
Proof.
  unfold JS.index, JS.length.
  destruct (Z.ltb_spec (Z.of_nat (List.length l)) 0); [lia|].
  rewrite Nat2Z.id. apply list_lookup_middle. reflexivity.
Qed.

(** The state after an attempt that writes and whose request resolves. *)
Lemma persist_resolved (updated : string) (now : Z) (st : Block.State)
    (docs : list Document.t) (cur : Document.t) :
  UIBlock.status (Block.block st) = idle ->
  Block.cache st !! Block.documentUrl (Block.block st) = Some docs ->
  JS.at_last docs = Some cur ->
  JS.truthy_opt (Document.content cur) = true ->
  Document.content cur <> Some updated ->
  fst (Block.persist updated true now st)
  = Block.mkState
      (UIBlock.with_content (Block.block st) updated)
      (<[Block.documentUrl (Block.block st)
           := docs ++ [Document.with_content cur updated now]]>
         (Block.cache st))
      (Block.mode st) (Some (Document.with_content cur updated now))
      (JS.length docs) false.
Proof.
  intros Hidle Hcache Hlast Htruthy Hne. unfold Block.persist.
  rewrite (handleContentChange_changed _ updated true now st docs cur
             Hcache Hlast Htruthy Hne).
  cbn [fst]. unfold Block.commit.
  assert (Hafter :
    Block.documents
      (Block.setCache (Block.applyUpdate st (Block.SetIsContentDirty false))
         (<[Block.documentUrl (Block.block st)
              := docs ++ [Document.with_content cur updated now]]>
            (Block.cache st)))
    = Some (docs ++ [Document.with_content cur updated now])).
  { unfold Block.documents, Block.documentsKey. simpl.
    rewrite Hidle. apply lookup_insert_eq. }
  assert (Hbefore : Block.documents st = Some docs).
  { unfold Block.documents, Block.documentsKey. by rewrite Hidle. }
  rewrite Hafter, Hbefore. rewrite decide_False.
  - unfold Block.documentsEffect. rewrite Hafter.
    assert (JS.at_last (docs ++ [Document.with_content cur updated now])
            = Some (Document.with_content cur updated now)) as Hnew
      by apply last_snoc.
    rewrite (at_last_nonempty _ _ Hnew), Hnew, js_length_snoc. reflexivity.
  - intros [= Heq]. apply (f_equal List.length) in Heq.
    rewrite length_app in Heq. simpl in Heq. lia.
Qed.

(** X4: when a persistence attempt writes and its request resolves on an
    idle panel, the panel ends on the new snapshot: the sequence has grown by
    that one snapshot, the version index points at it, the panel is in
    current-version mode, the panel content and the content read at the index
    are the saved text, the dirty flag is cleared and the header shows the
    time of the write. *)
Theorem persist_shows_saved_version (updated : string) (now : Z) (st : Block.State) (docs : list Document.t) (cur : Document.t) :
  UIBlock.status (Block.block st) = idle ->
  Block.cache st !! Block.documentUrl (Block.block st) = Some docs ->
  JS.at_last docs = Some cur ->
  JS.truthy_opt (Document.content cur) = true ->
  Document.content cur <> Some updated ->
  Block.documents (fst (Block.persist updated true now st))
    = Some (docs ++ [Document.with_content cur updated now]) /\
  Block.currentVersionIndex (fst (Block.persist updated true now st))
    = JS.length docs /\
  Block.isCurrentVersion (fst (Block.persist updated true now st)) = true /\
  UIBlock.content (Block.block (fst (Block.persist updated true now st)))
    = updated /\
  Block.getDocumentContentById
    (Block.documents (fst (Block.persist updated true now st)))
    (Block.currentVersionIndex (fst (Block.persist updated true now st)))
    = updated /\
  Block.isContentDirty (fst (Block.persist updated true now st)) = false /\
  Block.statusLine (fst (Block.persist updated true now st))
    = Block.UpdatedSince now.
Proof.
  intros Hidle Hcache Hlast Htruthy Hne.
  rewrite (persist_resolved updated now st docs cur
             Hidle Hcache Hlast Htruthy Hne).
  assert (Hdocs :
    Block.documents
      (Block.mkState (UIBlock.with_content (Block.block st) updated)
         (<[Block.documentUrl (Block.block st)
              := docs ++ [Document.with_content cur updated now]]>
            (Block.cache st))
         (Block.mode st) (Some (Document.with_content cur updated now))
         (JS.length docs) false)
    = Some (docs ++ [Document.with_content cur updated now])).
  { unfold Block.documents, Block.documentsKey. simpl.
    rewrite Hidle. apply lookup_insert_eq. }
  split; [exact Hdocs|]. split; [reflexivity|]. split.
  { unfold Block.isCurrentVersion. rewrite Hdocs.
    cbn [Block.currentVersionIndex]. rewrite js_length_snoc, Z.eqb_refl.
    by destruct (0 <? _). }
  split; [reflexivity|]. split; [|done].
  rewrite Hdocs. cbn [Block.currentVersionIndex].
  unfold Block.getDocumentContentById. by rewrite js_index_snoc.
Qed.

Lemma persist_shows_saved_version_witness :
  Block.currentVersionIndex
    (fst (Block.persist "my edit" true 5000 Examples.editing)) = 1 /\
  Block.getDocumentContentById
    (Block.documents (fst (Block.persist "my edit" true 5000 Examples.editing)))
    (Block.currentVersionIndex
       (fst (Block.persist "my edit" true 5000 Examples.editing)))
  = "my edit".
Proof.
  destruct (persist_shows_saved_version "my edit" 5000 Examples.editing
              [Examples.v1] Examples.v1)
    as (_ & Hidx & _ & _ & Hread & _);
    [reflexivity | reflexivity | reflexivity | reflexivity | discriminate |].
  split; [exact Hidx | exact Hread].
Defined.

(** X5: a persistence attempt never rewrites history. Whatever the new
    content and whether or not the request resolves, the sequence cached
    under any key before the attempt is a prefix of the sequence cached under
    that key after it. *)
Theorem persist_only_appends (updated : string) (ok : bool) (now : Z) (st : Block.State) (key : string) (docs : list Document.t) :
  Block.cache st !! key = Some docs ->
  exists docs',
    Block.cache (fst (Block.persist updated ok now st)) !! key = Some docs' /\
    docs `prefix_of` docs'.
Proof.
  intros Hkey. unfold Block.persist. cbn [fst]. rewrite commit_cache.
  unfold Block.handleContentChange.
  destruct (Block.cache st !! Block.documentUrl (Block.block st))
    as [currentDocuments|] eqn:Hcur; [|by exists docs].
  destruct (JS.at_last currentDocuments) as [currentDocument|];
    [|by exists docs].
  destruct (negb (JS.truthy_opt (Document.content currentDocument)));
    [by exists docs|].
  destruct (JS.strict_ne updated (Document.content currentDocument));
    [|by exists docs].
  destruct ok; [|by exists docs]. simpl.
  destruct (decide (key = Block.documentUrl (Block.block st))) as [->|Hother].
  - rewrite lookup_insert_eq. eexists. split; [reflexivity|].
    assert (docs = currentDocuments) as -> by congruence.
    by apply prefix_app_r.
  - rewrite lookup_insert_ne by done. by exists docs.
Qed.

Lemma persist_only_appends_witness :
  exists docs',
    Block.cache (fst (Block.persist "my edit" true 5000 Examples.editing))
      !! Examples.key1 = Some docs' /\
    [Examples.v1] `prefix_of` docs'.
Proof.
  apply (persist_only_appends "my edit" true 5000 Examples.editing
           Examples.key1 [Examples.v1]).
  reflexivity.
Defined.

(** ** The quiet window seen from the panel *)

(** The time line right after the last call of a quiet window. *)
Lemma quiet_window_state (net : Z -> option Z) (st : Block.State)
    (d : Document.t) (c0 : string) (first : Block.Call)
    (rest : list Block.Call) :
  Block.document st = Some d ->
  Document.content d = Some c0 ->
  Forall (fun c => Block.debounce c = true /\ Block.updatedContent c <> c0)
    (first :: rest) ->
  Block.withinQuietWindow (Block.time first) rest ->
  fold_left (Block.step net) (first :: rest) (Block.mkTimeline st None [])
  = Block.mkTimeline
      (Block.applyUpdate st (Block.SetIsContentDirty true))
      (Some (Block.updatedContent (List.last rest first),
             Block.time (List.last rest first) + Block.debounceDelay)) [].
Proof.
  intros Hdoc Hc0 Hall Hq.
  apply Forall_cons in Hall as [[Hdeb Hne] Hall]. simpl fold_left.
  rewrite (step_rearms net st None [] first d c0 Hdoc Hc0 Hne Hdeb I).
  exact (fold_rearms net
           (Block.applyUpdate st (Block.SetIsContentDirty true))
           d c0 [] rest Hdoc Hc0 eq_refl first Hall Hq).
Qed.

Lemma last_call_differs (c0 : string) (first : Block.Call)
    (rest : list Block.Call) :
  Forall (fun c => Block.debounce c = true /\ Block.updatedContent c <> c0)
    (first :: rest) ->
  Block.updatedContent (List.last rest first) <> c0.
Proof.
  intros Hall. rewrite Forall_forall in Hall.
  pose proof (last_in rest first) as Hin.
  apply list_elem_of_In in Hin. by apply Hall in Hin as [_ ?].
Qed.

(** X6: while the calls of a quiet window keep coming, nothing is sent: after
    the last call no request has left, the cache is as it was, the timer is
    armed for 2000 ms after that call with its content, and the header says
    that changes are being saved. *)
Theorem typing_sends_nothing (net : Z -> option Z) (st : Block.State) (d : Document.t) (c0 : string) (first : Block.Call) (rest : list Block.Call) :
  Block.document st = Some d ->
  Document.content d = Some c0 ->
  Forall (fun c => Block.debounce c = true /\ Block.updatedContent c <> c0)
    (first :: rest) ->
  Block.withinQuietWindow (Block.time first) rest ->
  Block.sent
    (fold_left (Block.step net) (first :: rest) (Block.mkTimeline st None []))
  = [] /\
  Block.cache
    (Block.panel
       (fold_left (Block.step net) (first :: rest)
          (Block.mkTimeline st None [])))
  = Block.cache st /\
  Block.pending
    (fold_left (Block.step net) (first :: rest) (Block.mkTimeline st None []))
  = Some (Block.updatedContent (List.last rest first),
          Block.time (List.last rest first) + Block.debounceDelay) /\
  Block.statusLine
    (Block.panel
       (fold_left (Block.step net) (first :: rest)
          (Block.mkTimeline st None [])))
  = Block.SavingChanges.
Proof.
  intros Hdoc Hc0 Hall Hq.
  by rewrite (quiet_window_state net st d c0 first rest Hdoc Hc0 Hall Hq).
Qed.

Lemma typing_sends_nothing_witness :
  Block.sent
    (fold_left (Block.step Examples.alwaysResolves)
       (Block.mkCall 0 "draft" true :: Examples.furtherEdits)
       (Block.mkTimeline Examples.saved None []))
  = [] /\
  Block.statusLine
    (Block.panel
       (fold_left (Block.step Examples.alwaysResolves)
          (Block.mkCall 0 "draft" true :: Examples.furtherEdits)
          (Block.mkTimeline Examples.saved None [])))
  = Block.SavingChanges.
Proof.
  destruct (typing_sends_nothing Examples.alwaysResolves Examples.saved
              Examples.v1 "v1" (Block.mkCall 0 "draft" true)
              Examples.furtherEdits)
    as (Hsent & _ & _ & Hline).
  - reflexivity.
  - reflexivity.
  - repeat constructor; discriminate.
  - simpl. unfold Block.debounceDelay. lia.
  - split; [exact Hsent | exact Hline].
Defined.

(** The panel after the timer of a quiet window has run. *)
Lemma run_panel (net : Z -> option Z) (st : Block.State) (d : Document.t)
    (c0 : string) (first : Block.Call) (rest : list Block.Call) :
  Block.document st = Some d ->
  Document.content d = Some c0 ->
  Forall (fun c => Block.debounce c = true /\ Block.updatedContent c <> c0)
    (first :: rest) ->
  Block.withinQuietWindow (Block.time first) rest ->
  Block.panel (Block.run net (first :: rest) st)
  = fst match net (Block.time (List.last rest first) + Block.debounceDelay)
        with
        | Some answered =>
            Block.persist (Block.updatedContent (List.last rest first))
              true answered
              (Block.applyUpdate st (Block.SetIsContentDirty true))
        | None =>
            Block.persist (Block.updatedContent (List.last rest first))
              false (Block.time (List.last rest first) + Block.debounceDelay)
              (Block.applyUpdate st (Block.SetIsContentDirty true))
        end.
Proof.
  intros Hdoc Hc0 Hall Hq. unfold Block.run.
  rewrite (quiet_window_state net st d c0 first rest Hdoc Hc0 Hall Hq).
  unfold Block.settle, Block.expire. cbn [Block.pending].
  by rewrite Z.leb_refl.
Qed.

(** X7: when the write of a quiet window is answered on an idle panel whose
    loaded document is the latest cached snapshot with non-empty content, the
    panel ends saved: the dirty flag is cleared, the header shows the time at
    which the request was answered (the appended snapshot is stamped after
    the [await]), the panel content is the content of the last call and the
    version index points at the appended snapshot. *)
Theorem resolved_save_ends_clean (net : Z -> option Z) (st : Block.State) (docs : list Document.t) (d : Document.t) (c0 : string) (first : Block.Call) (rest : list Block.Call) (answered : Z) :
  UIBlock.status (Block.block st) = idle ->
  Block.document st = Some d ->
  Block.cache st !! Block.documentUrl (Block.block st) = Some docs ->
  JS.at_last docs = Some d ->
  Document.content d = Some c0 ->
  c0 <> "" ->
  Forall (fun c => Block.debounce c = true /\ Block.updatedContent c <> c0)
    (first :: rest) ->
  Block.withinQuietWindow (Block.time first) rest ->
  net (Block.time (List.last rest first) + Block.debounceDelay)
    = Some answered ->
  Block.isContentDirty (Block.panel (Block.run net (first :: rest) st))
    = false /\
  Block.statusLine (Block.panel (Block.run net (first :: rest) st))
    = Block.UpdatedSince answered /\
  Block.document (Block.panel (Block.run net (first :: rest) st))
    = Some (Document.with_content d
              (Block.updatedContent (List.last rest first)) answered) /\
  UIBlock.content
    (Block.block (Block.panel (Block.run net (first :: rest) st)))
    = Block.updatedContent (List.last rest first) /\
  Block.currentVersionIndex (Block.panel (Block.run net (first :: rest) st))
    = JS.length docs.
Proof.
  intros Hidle Hdoc Hcache Hlast Hc0 Hnonempty Hall Hq Hnet.
  rewrite (run_panel net st d c0 first rest Hdoc Hc0 Hall Hq), Hnet.
  rewrite (persist_resolved _ _
             (Block.applyUpdate st (Block.SetIsContentDirty true)) docs d
             Hidle Hcache Hlast).
  - done.
  - rewrite Hc0. simpl. unfold JS.truthy.
    by apply negb_true_iff, String.eqb_neq.
  - rewrite Hc0. intros [= Heq].
    by apply (last_call_differs c0 first rest Hall).
Qed.

Lemma resolved_save_ends_clean_witness :
  Block.statusLine
    (Block.panel
       (Block.run Examples.alwaysResolves
          (Block.mkCall 0 "draft" true :: Examples.furtherEdits)
          Examples.saved))
  = Block.UpdatedSince 3020 /\
  UIBlock.content
    (Block.block
       (Block.panel
          (Block.run Examples.alwaysResolves
             (Block.mkCall 0 "draft" true :: Examples.furtherEdits)
             Examples.saved)))
  = "ab".
Proof.
  destruct (resolved_save_ends_clean Examples.alwaysResolves Examples.saved
              [Examples.v1] Examples.v1 "v1" (Block.mkCall 0 "draft" true)
              Examples.furtherEdits 3020)
    as (_ & Hline & _ & Hcontent & _).
  - reflexivity.
  - reflexivity.
  - reflexivity.
  - reflexivity.
  - reflexivity.
  - discriminate.
  - repeat constructor; discriminate.
  - simpl. unfold Block.debounceDelay. lia.
  - reflexivity.
  - split; [exact Hline | exact Hcontent].
Defined.

(** X8: when the request of that write rejects, there is no retry and no
    rollback: the panel stays exactly as the calls left it, with the dirty
    flag set and the header saying that changes are being saved, the cache
    keeps its sequence and no timer is armed any more. *)
Theorem rejected_save_stays_dirty (net : Z -> option Z) (st : Block.State) (docs : list Document.t) (d : Document.t) (c0 : string) (first : Block.Call) (rest : list Block.Call) :
  Block.document st = Some d ->
  Block.cache st !! Block.documentUrl (Block.block st) = Some docs ->
  JS.at_last docs = Some d ->
  Document.content d = Some c0 ->
  c0 <> "" ->
  Forall (fun c => Block.debounce c = true /\ Block.updatedContent c <> c0)
    (first :: rest) ->
  Block.withinQuietWindow (Block.time first) rest ->
  net (Block.time (List.last rest first) + Block.debounceDelay) = None ->
  Block.panel (Block.run net (first :: rest) st)
    = Block.applyUpdate st (Block.SetIsContentDirty true) /\
  Block.statusLine (Block.panel (Block.run net (first :: rest) st))
    = Block.SavingChanges /\
  Block.pending (Block.run net (first :: rest) st) = None.
Proof.
  intros Hdoc Hcache Hlast Hc0 Hnonempty Hall Hq Hnet.
  assert (Hpanel : Block.panel (Block.run net (first :: rest) st)
                   = Block.applyUpdate st (Block.SetIsContentDirty true)).
  { rewrite (run_panel net st d c0 first rest Hdoc Hc0 Hall Hq), Hnet.
    unfold Block.persist.
    rewrite (handleContentChange_changed _ _ false _
               (Block.applyUpdate st (Block.SetIsContentDirty true)) docs d
               Hcache Hlast).
    - cbn [fst]. unfold Block.commit. by rewrite decide_True.
    - rewrite Hc0. simpl. unfold JS.truthy.
      by apply negb_true_iff, String.eqb_neq.
    - rewrite Hc0. intros [= Heq].
      by apply (last_call_differs c0 first rest Hall). }
  rewrite Hpanel. split; [done|]. split; [done|].
  unfold Block.run.
  rewrite (quiet_window_state net st d c0 first rest Hdoc Hc0 Hall Hq).
  unfold Block.settle, Block.expire. cbn [Block.pending].
  by rewrite Z.leb_refl.
Qed.

Lemma rejected_save_stays_dirty_witness :
  Block.statusLine
    (Block.panel
       (Block.run Examples.neverResolves
          (Block.mkCall 0 "draft" true :: Examples.furtherEdits)
          Examples.saved))
  = Block.SavingChanges.
Proof.
  apply (rejected_save_stays_dirty Examples.neverResolves Examples.saved
           [Examples.v1] Examples.v1 "v1" (Block.mkCall 0 "draft" true)
           Examples.furtherEdits).
  - reflexivity.
  - reflexivity.
  - reflexivity.
  - reflexivity.
  - discriminate.
  - repeat constructor; discriminate.
  - simpl. unfold Block.debounceDelay. lia.
  - reflexivity.
Defined.

(** ** Navigation steps compose *)

Lemma navigate_toggle (st : Block.State) (docs : list Document.t) :
  Block.documents st = Some docs ->
  Block.navigate st Block.toggle
  = Block.applyUpdate st
      (Block.SetMode (fun m => match m with edit => diff | diff => edit end)).
Proof.
  intros Hdocs. unfold Block.navigate, Block.handleVersionChange.
  by rewrite Hdocs.
Qed.

Lemma navigate_prev (st : Block.State) (docs : list Document.t) :
  Block.documents st = Some docs ->
  0 < Block.currentVersionIndex st ->
  Block.navigate st Block.prev
  = Block.applyUpdate st (Block.SetCurrentVersionIndex (fun i => i - 1)).
Proof.
  intros Hdocs Hpos. unfold Block.navigate, Block.handleVersionChange.
  rewrite Hdocs. simpl.
  by destruct (Z.ltb_spec 0 (Block.currentVersionIndex st)); [|lia].
Qed.

Lemma navigate_next (st : Block.State) (docs : list Document.t) :
  Block.documents st = Some docs ->
  Block.currentVersionIndex st < JS.length docs - 1 ->
  Block.navigate st Block.next
  = Block.applyUpdate st (Block.SetCurrentVersionIndex (fun i => i + 1)).
Proof.
  intros Hdocs Hlt. unfold Block.navigate, Block.handleVersionChange.
  rewrite Hdocs. simpl.
  by destruct (Z.ltb_spec (Block.currentVersionIndex st)
                 (JS.length docs - 1)); [|lia].
Qed.

(** X9: navigation steps undo one another. On a panel that holds a snapshot
    list, toggling twice restores the state; prev followed by next restores
    it when the index is above 0 and at most length-1; next followed by prev
    restores it when the index is below length-1; and latest, which is
    idempotent, puts a panel with at least one snapshot in current-version
    mode. *)
Theorem navigate_round_trips (st : Block.State) (docs : list Document.t) :
  Block.documents st = Some docs ->
  Block.navigate (Block.navigate st Block.toggle) Block.toggle = st /\
  (0 < Block.currentVersionIndex st <= JS.length docs - 1 ->
   Block.navigate (Block.navigate st Block.prev) Block.next = st) /\
  (Block.currentVersionIndex st < JS.length docs - 1 ->
   0 <= Block.currentVersionIndex st ->
   Block.navigate (Block.navigate st Block.next) Block.prev = st) /\
  Block.navigate (Block.navigate st Block.latest) Block.latest
    = Block.navigate st Block.latest /\
  (1 <= JS.length docs ->
   Block.isCurrentVersion (Block.navigate st Block.latest) = true).
Proof.
  intros Hdocs. split; [|split; [|split; [|split]]].
  - rewrite (navigate_toggle _ docs) by by rewrite navigate_documents.
    rewrite (navigate_toggle st docs Hdocs).
    destruct st as [b c m d i dirty]. simpl. by destruct m.
  - intros [Hpos Hle].
    rewrite (navigate_next _ docs).
    + rewrite (navigate_prev st docs Hdocs Hpos).
      destruct st as [b c m d i dirty]. simpl. f_equal. lia.
    + by rewrite navigate_documents.
    + rewrite (navigate_prev st docs Hdocs Hpos). simpl. lia.
  - intros Hlt Hnonneg.
    rewrite (navigate_prev _ docs).
    + rewrite (navigate_next st docs Hdocs Hlt).
      destruct st as [b c m d i dirty]. simpl. f_equal. lia.
    + by rewrite navigate_documents.
    + rewrite (navigate_next st docs Hdocs Hlt). simpl. lia.
  - unfold Block.navigate at 1. rewrite navigate_documents, Hdocs.
    unfold Block.navigate, Block.handleVersionChange. by rewrite Hdocs.
  - intros Hlen. unfold Block.isCurrentVersion.
    rewrite navigate_documents, Hdocs.
    destruct (Z.ltb_spec 0 (JS.length docs)); [|lia].
    unfold Block.navigate, Block.handleVersionChange. rewrite Hdocs. simpl.
    apply Z.eqb_refl.
Qed.

Lemma navigate_round_trips_witness :
  Block.navigate (Block.navigate Examples.historical Block.prev) Block.next
    = Examples.historical /\
  Block.navigate (Block.navigate Examples.historical Block.next) Block.prev
    = Examples.historical /\
  Block.isCurrentVersion (Block.navigate Examples.historical Block.latest)
    = true.
Proof.
  destruct (navigate_round_trips Examples.historical
              [Examples.v1; Examples.v2; Examples.v3] eq_refl)
    as (_ & Hpn & Hnp & _ & Hlatest).
  split; [|split].
  - apply Hpn. unfold JS.length. simpl. lia.
  - apply Hnp; unfold JS.length; simpl; lia.
  - apply Hlatest. unfold JS.length. simpl. lia.
Defined.

(** ** What the editor is given *)

(** X10: in edit mode, when the panel shows its document, the editor gets the
    panel content and is marked current exactly on the last version; on an
    earlier version it gets the content of the snapshot at the index (the
    empty string for a null content) and is marked not current. *)
Theorem editor_shows_selected_version (isDocumentsFetching : bool) (st : Block.State) (docs : list Document.t) :
  Block.mode st = edit ->
  Block.documents st = Some docs ->
  isDocumentsFetching && negb (JS.truthy (UIBlock.content (Block.block st)))
    = false ->
  (Block.currentVersionIndex st = JS.length docs - 1 ->
   Block.mainView isDocumentsFetching st
   = Block.Editor (UIBlock.content (Block.block st)) true
       (Block.currentVersionIndex st) (UIBlock.status (Block.block st))) /\
  (forall d,
     0 <= Block.currentVersionIndex st < JS.length docs - 1 ->
     docs !! Z.to_nat (Block.currentVersionIndex st) = Some d ->
     Block.mainView isDocumentsFetching st
     = Block.Editor (JS.nullish (Document.content d) "") false
         (Block.currentVersionIndex st) (UIBlock.status (Block.block st))).
Proof.
  intros Hmode Hdocs Hshown. unfold Block.mainView, Block.isCurrentVersion.
  rewrite Hshown, Hmode, Hdocs. split.
  - intros ->. rewrite Z.eqb_refl. by destruct (0 <? JS.length docs).
  - intros d [Hlo Hhi] Hd.
    destruct (Z.ltb_spec 0 (JS.length docs)); [|lia].
    destruct (Z.eqb_spec (Block.currentVersionIndex st) (JS.length docs - 1));
      [lia|].
    unfold Block.getDocumentContentById, JS.index.
    destruct (Z.ltb_spec (Block.currentVersionIndex st) 0); [lia|].
    by rewrite Hd.
Qed.

Lemma editor_shows_selected_version_witness :
  Block.mainView false Examples.historical
    = Block.Editor "v2" false 1 idle /\
  Block.mainView false Examples.threeVersions
    = Block.Editor "v3" true 2 idle.
Proof.
  split.
  - apply (proj2 (editor_shows_selected_version false Examples.historical
                    [Examples.v1; Examples.v2; Examples.v3]
                    eq_refl eq_refl eq_refl) Examples.v2);
      [unfold JS.length; simpl; lia | reflexivity].
  - apply (proj1 (editor_shows_selected_version false Examples.threeVersions
                    [Examples.v1; Examples.v2; Examples.v3]
                    eq_refl eq_refl eq_refl)).
    reflexivity.
Defined.

(** ** The suggestions hook *)

(** X11: suggestions are requested exactly when the version hook has data:
    the key of the suggestions hook is null if and only if the panel holds no
    snapshot list, and a key is only ever built on an idle panel, for the
    panel's documentId. *)
Theorem suggestions_follow_documents (st : Block.State) :
  (Block.suggestionsKey st = None <-> Block.documents st = None) /\
  (forall k, Block.suggestionsKey st = Some k ->
     UIBlock.status (Block.block st) = idle /\
     k = String.append "/api/suggestions?documentId="
           (UIBlock.documentId (Block.block st))).
Proof.
  unfold Block.suggestionsKey, Block.documents, Block.documentsKey.
  destruct (UIBlock.status (Block.block st)); simpl.
  - split; [done|]. intros k. discriminate.
  - destruct (Block.cache st !! Block.documentUrl (Block.block st)).
    + split; [by split|]. by intros k [= <-].
    + split; [done|]. intros k. discriminate.
Qed.

(** * Properties of the document tool buttons *)






(** X14: [getActionText] never takes its default case, and the six
    combinations of tool type and tense get six different texts. *)
Theorem getActionText_distinct (type1 type2 : DocumentTool.ToolType) (tense1 tense2 : DocumentTool.Tense) :
  is_Some (DocumentTool.getActionText type1 tense1) /\
  (DocumentTool.getActionText type1 tense1
     = DocumentTool.getActionText type2 tense2 ->
   type1 = type2 /\ tense1 = tense2).
Proof.
  split; [by destruct type1|].
  destruct type1, tense1, type2, tense2; simpl; intros [= ]; by split.
Qed.

(** * Properties of the chat input *)

(** X15: batches of uploads compose. Two batches handled one after the
    other leave the state that the single batch of all their files leaves:
    the attachments are appended in the order the files were submitted. A
    batch without files leaves the attachments as they were. *)
Theorem upload_batches_compose (uploads1 uploads2 : list (ChatInput.File * ChatInput.UploadResponse)) (st : ChatInput.State) :
  ChatInput.handleFileChange uploads2 (ChatInput.handleFileChange uploads1 st)
    = ChatInput.handleFileChange (uploads1 ++ uploads2) st /\
  ChatInput.attachments (ChatInput.handleFileChange [] st)
    = ChatInput.attachments st.
Proof.
  split.
  - unfold ChatInput.handleFileChange, ChatInput.handleFileChange_finish,
      ChatInput.successfullyUploadedAttachments. simpl.
    by rewrite omap_app, app_assoc.
  - simpl. apply app_nil_r.
Qed.

(** X16: every upload ends in exactly one of an attachment and an error
    toast; and a batch in which every upload fails leaves the committed
    attachments as they were. *)
Theorem failed_uploads_add_nothing (uploads : list (ChatInput.File * ChatInput.UploadResponse)) (st : ChatInput.State) :
  Forall (fun u => ChatInput.succeeded (snd u) = false) uploads ->
  ChatInput.attachments (ChatInput.handleFileChange uploads st)
    = ChatInput.attachments st /\
  Forall (fun u => is_Some (snd (ChatInput.uploadFile (fst u) (snd u))))
    uploads /\
  (forall file response,
     fst (ChatInput.uploadFile file response) = None <->
     is_Some (snd (ChatInput.uploadFile file response))).
Proof.
  intros Hfail. split; [|split].
  - simpl. rewrite <- (app_nil_r (ChatInput.attachments st)) at 2. f_equal.
    unfold ChatInput.successfullyUploadedAttachments.
    induction Hfail as [|[file response] uploads Hr _ IH]; [done|].
    destruct response; simpl in *; try done; exact IH.
  - eapply Forall_impl; [exact Hfail|].
    intros [file response] Hr. by destruct response.
  - intros file response. destruct response; simpl; split;
      (done || intros [? [=]] || by eexists).
Qed.

Lemma failed_uploads_add_nothing_witness :
  ChatInput.attachments
    (ChatInput.handleFileChange Examples.bothFail Examples.idleInput)
  = ChatInput.attachments Examples.idleInput.
Proof.
  apply (failed_uploads_add_nothing Examples.bothFail Examples.idleInput).
  repeat constructor.
Defined.



(** X18: the draft survives a remount. After mounting, the input and the
    stored draft both hold the value of the text area when it is non-empty
    and the stored draft otherwise; and what the user typed last is what a
    later mount with an empty text area puts back in the input. *)
Theorem draft_round_trip (domValue value : string) (st later : ChatInput.State) :
  ChatInput.input (ChatInput.mount domValue st)
    = ChatInput.finalValue domValue (ChatInput.localStorageInput st) /\
  ChatInput.localStorageInput (ChatInput.mount domValue st)
    = ChatInput.input (ChatInput.mount domValue st) /\
  (domValue <> "" -> ChatInput.input (ChatInput.mount domValue st) = domValue) /\
  (ChatInput.localStorageInput later
     = ChatInput.localStorageInput (ChatInput.onInputChange value st) ->
   ChatInput.input (ChatInput.mount "" later) = value).
Proof.
  assert (Hinput : forall dom s,
            ChatInput.input (ChatInput.mount dom s)
            = ChatInput.finalValue dom (ChatInput.localStorageInput s)).
  { intros dom s. unfold ChatInput.mount. by case_match. }
  split; [apply Hinput|]. split; [|split].
  - unfold ChatInput.mount. cbn [ChatInput.input].
    destruct (String.eqb_spec
                (ChatInput.finalValue domValue (ChatInput.localStorageInput st))
                (ChatInput.input st)) as [Heq|Hne]; simpl; congruence.
  - intros Hdom. rewrite Hinput. unfold ChatInput.finalValue, JS.truthy.
    by rewrite (proj2 (String.eqb_neq domValue "") Hdom).
  - intros Hstored. rewrite Hinput, Hstored. simpl.
    unfold ChatInput.finalValue, JS.truthy. simpl.
    by destruct (String.eqb_spec value "") as [->|].
Qed.

Lemma draft_round_trip_witness :
  ChatInput.input (ChatInput.mount "" Examples.withDraft) = "unsent words".
Proof.
  apply (draft_round_trip "" "unsent words" Examples.idleInput
           Examples.withDraft).
  reflexivity.
Defined.



(** * Properties of the page *)

(** X20: the selected model is always the id of a listed model or the
    default. A cookie that names a listed model with a non-empty id selects
    that id; a cookie that names no listed model, and a missing cookie,
    select the default. *)
Theorem selectedModelId_is_known {Model : Type} (id : Model -> string) (models : list Model) (DEFAULT_MODEL_NAME : string) (modelIdFromCookie : option string) :
  (In (Page.selectedModelId id models DEFAULT_MODEL_NAME modelIdFromCookie)
      (map id models) \/
   Page.selectedModelId id models DEFAULT_MODEL_NAME modelIdFromCookie
     = DEFAULT_MODEL_NAME) /\
  (forall c, modelIdFromCookie = Some c -> c <> "" -> In c (map id models) ->
     Page.selectedModelId id models DEFAULT_MODEL_NAME modelIdFromCookie = c) /\
  (forall c, modelIdFromCookie = Some c -> ~ In c (map id models) ->
     Page.selectedModelId id models DEFAULT_MODEL_NAME modelIdFromCookie
       = DEFAULT_MODEL_NAME) /\
  (modelIdFromCookie = None ->
   Page.selectedModelId id models DEFAULT_MODEL_NAME modelIdFromCookie
     = DEFAULT_MODEL_NAME).
Proof.
  unfold Page.selectedModelId. split; [|split; [|split]].
  - destruct modelIdFromCookie as [c|]; [|by right].
    destruct (List.find _ models) as [model|] eqn:Hfind; [|by right].
    destruct (JS.truthy (id model)); [|by right].
    left. apply in_map. by apply find_some in Hfind as [? _].
  - intros c -> Hc Hin.
    destruct (List.find _ models) as [model|] eqn:Hfind.
    + apply find_some in Hfind as [_ Heq]. apply String.eqb_eq in Heq.
      rewrite Heq. unfold JS.truthy.
      by rewrite (proj2 (String.eqb_neq c "") Hc).
    + apply in_map_iff in Hin as (model & Hid & Hin).
      pose proof (find_none _ _ Hfind model Hin) as Hno. simpl in Hno.
      apply String.eqb_neq in Hno. congruence.
  - intros c -> Hnotin.
    destruct (List.find _ models) as [model|] eqn:Hfind; [|done].
    apply find_some in Hfind as [Hin Heq]. apply String.eqb_eq in Heq.
    destruct Hnotin. rewrite <- Heq. by apply in_map.
  - by intros ->.
Qed.

Lemma selectedModelId_is_known_witness :
  Page.selectedModelId (fun m : string => m) Examples.modelIds "gpt-4o-mini"
    (Some "gpt-4o") = "gpt-4o" /\
  Page.selectedModelId (fun m : string => m) Examples.modelIds "gpt-4o-mini"
    (Some "llama") = "gpt-4o-mini".
Proof.
  destruct (selectedModelId_is_known (fun m : string => m) Examples.modelIds
              "gpt-4o-mini" (Some "gpt-4o")) as (_ & Hhit & _).
  destruct (selectedModelId_is_known (fun m : string => m) Examples.modelIds
              "gpt-4o-mini" (Some "llama")) as (_ & _ & Hmiss & _).
  split.
  - apply Hhit; [reflexivity | discriminate | simpl; tauto].
  - apply (Hmiss "llama"); [reflexivity|].
    simpl. intros [H|[H|[H|[]]]]; discriminate.
Defined.

(** X21: [customModel] hands the identifier to the Anthropic provider
    exactly when the text "claude" occurs somewhere in it, and to the OpenAI
    provider otherwise; the identifier is passed on unchanged. *)
Theorem customModel_provider (apiIdentifier : string) :
  (fst (Page.customModel apiIdentifier) = Page.anthropic <->
   exists m, String.substring m 6 apiIdentifier = "claude") /\
  (fst (Page.customModel apiIdentifier) = Page.openai <->
   forall m, String.substring m 6 apiIdentifier <> "claude") /\
  snd (Page.customModel apiIdentifier) = apiIdentifier.
Proof.
  unfold Page.customModel, Page.includesClaude.
  destruct (String.index 0 "claude" apiIdentifier) as [m|] eqn:Hindex; simpl.
  - apply String.index_correct1 in Hindex. simpl in Hindex.
    split; [|split]; [| |done].
    + split; [by exists m | done].
    + split; [done|]. intros Hnone. by destruct (Hnone m).
  - split; [|split]; [| |done].
    + split; [done|]. intros [m Hm]. exfalso.
      apply (String.index_correct3 0 m _ _ Hindex); [done | lia | exact Hm].
    + split; [|done]. intros _ m.
      apply (String.index_correct3 0 m _ _ Hindex); [done | lia].
Qed.
